(** * Low rank Trotter steps of OpenFermion-Cirq

    A shallow embedding of [openfermioncirq/trotter/algorithms/low_rank.py]
    and the properties of its gate emission protocol.

    The numerical entries are kept abstract: the emission protocol only
    combines them with the arithmetic of the host language, so every
    statement below holds for whatever that arithmetic is.  The two
    decomposition routines of OpenFermion are parameters of the constructor.
    The swap network and the Bogoliubov transformation are recorded as the
    calls the generators yield. *)

From Stdlib Require Import List ZArith Arith Bool Lia.
Import ListNotations.

Set Implicit Arguments.

(** ** Exceptions and fallible values *)

Inductive exception : Type :=
| AttributeError
| IndexError
| ValueError
| LibraryError (code : nat).

Inductive result (A : Type) : Type :=
| Ok (a : A)
| Raise (e : exception).

Arguments Ok {A} a.
Arguments Raise {A} e.

Definition result_bind {A B : Type} (r : result A) (k : A -> result B)
  : result B :=
  match r with
  | Ok a => k a
  | Raise e => Raise e
  end.

Declare Scope result_scope.
Delimit Scope result_scope with result.

Notation "x <- r ;; k" := (result_bind r (fun x => k))
  (at level 61, r at next level, right associativity) : result_scope.
Notation "' p <- r ;; k" := (result_bind r (fun x => match x with p => k end))
  (at level 61, p pattern, r at next level, right associativity)
  : result_scope.

(** [l[i]] for a non-negative index. *)
Definition getitem {A : Type} (l : list A) (i : nat) : result A :=
  match nth_error l i with
  | Some a => Ok a
  | None => Raise IndexError
  end.

(** Truth value of an integer in a condition. *)
Definition truthy_nat (n : nat) : bool := negb (n =? 0).
Definition truthy_Z (z : Z) : bool := negb (z =? 0)%Z.

(** ** Numbers

    The scalars of the arrays (floats and complex floats in the program).
    No law is assumed of the operations. *)

Class Numeric (K : Type) : Type := {
  zero : K;
  one : K;
  of_int : Z -> K;
  add : K -> K -> K;
  mul : K -> K -> K;
  neg : K -> K;
  conjugate : K -> K;
  real_part : K -> K
}.

(** ** Arrays *)

Module numpy.
Section Arrays.
Context {K : Type} `{Numeric K}.

(** A two-dimensional array: its shape and its entries. *)
Record ndarray : Type := {
  nrows : nat;
  ncols : nat;
  item : nat -> nat -> K
}.

(** A four-dimensional array, only handed over to the decomposition. *)
Record ndarray4 : Type := {
  dim4 : nat;
  item4 : nat -> nat -> nat -> nat -> K
}.

Definition has_shape (r c : nat) (m : ndarray) : bool :=
  (nrows m =? r) && (ncols m =? c).

(** [m[p, q]] for non-negative indices. *)
Definition getitem2 (m : ndarray) (p q : nat) : result K :=
  if (p <? nrows m) && (q <? ncols m) then Ok (item m p q)
  else Raise IndexError.

Definition identity (n : nat) : ndarray :=
  {| nrows := n; ncols := n;
     item := fun i j => if i =? j then one else zero |}.

(** [m.T] *)
Definition T (m : ndarray) : ndarray :=
  {| nrows := ncols m; ncols := nrows m; item := fun i j => item m j i |}.

(** [m.conj()] *)
Definition conj (m : ndarray) : ndarray :=
  {| nrows := nrows m; ncols := ncols m;
     item := fun i j => conjugate (item m i j) |}.

(** [numpy.real(m)] *)
Definition real (m : ndarray) : ndarray :=
  {| nrows := nrows m; ncols := ncols m;
     item := fun i j => real_part (item m i j) |}.

(** [k * m] for a scalar [k]. *)
Definition scale (k : K) (m : ndarray) : ndarray :=
  {| nrows := nrows m; ncols := ncols m;
     item := fun i j => mul k (item m i j) |}.

(** [a + b] for arrays of one shape (arrays of different shapes are
    rejected here; broadcasting is not modelled). *)
Definition plus (a b : ndarray) : result ndarray :=
  if (nrows a =? nrows b) && (ncols a =? ncols b)
  then Ok {| nrows := nrows a; ncols := ncols a;
             item := fun i j => add (item a i j) (item b i j) |}
  else Raise ValueError.

(** The product of two arrays whose inner dimensions agree. *)
Definition product (a b : ndarray) : ndarray :=
  {| nrows := nrows a; ncols := ncols b;
     item := fun i j =>
       fold_left (fun acc k => add acc (mul (item a i k) (item b k j)))
                 (seq 0 (ncols a)) zero |}.

(** [numpy.dot(a, b)] for two-dimensional arrays. *)
Definition dot (a b : ndarray) : result ndarray :=
  if ncols a =? nrows b then Ok (product a b) else Raise ValueError.
End Arrays.
Arguments ndarray K : clear implicits.
Arguments ndarray4 K : clear implicits.
End numpy.

Import numpy(ndarray, ndarray4).

(** ** Hamiltonians *)

Section Hamiltonians.
Context {K : Type}.

(** Modelled from the spec: the union type [Hamiltonian] of
    [trotter_algorithm] is not among the sources.  A Hamiltonian is either
    an interaction operator, with its constant, its one-body coefficients
    and its two-body tensor, or an object of another class, each of whose
    attributes may or may not exist. *)
Inductive Hamiltonian : Type :=
| InteractionOperator (constant : K) (one_body_tensor : ndarray K)
                      (two_body_tensor : ndarray4 K)
| OtherHamiltonian (constant : option K) (one_body_tensor : option (ndarray K))
                   (two_body_tensor : option (ndarray4 K)).

Inductive HamiltonianType : Type :=
| InteractionOperatorType
| OtherType.

Definition type_of (h : Hamiltonian) : HamiltonianType :=
  match h with
  | InteractionOperator _ _ _ => InteractionOperatorType
  | OtherHamiltonian _ _ _ => OtherType
  end.

Definition HamiltonianType_eqb (a b : HamiltonianType) : bool :=
  match a, b with
  | InteractionOperatorType, InteractionOperatorType => true
  | OtherType, OtherType => true
  | _, _ => false
  end.

Definition getattr {A : Type} (attribute : option A) : result A :=
  match attribute with
  | Some a => Ok a
  | None => Raise AttributeError
  end.

(** [hamiltonian.constant] *)
Definition Hamiltonian_constant (h : Hamiltonian) : result K :=
  match h with
  | InteractionOperator c _ _ => Ok c
  | OtherHamiltonian c _ _ => getattr c
  end.

(** [hamiltonian.one_body_tensor] *)
Definition Hamiltonian_one_body_tensor (h : Hamiltonian)
  : result (ndarray K) :=
  match h with
  | InteractionOperator _ t _ => Ok t
  | OtherHamiltonian _ t _ => getattr t
  end.

(** [hamiltonian.two_body_tensor] *)
Definition Hamiltonian_two_body_tensor (h : Hamiltonian)
  : result (ndarray4 K) :=
  match h with
  | InteractionOperator _ _ t => Ok t
  | OtherHamiltonian _ _ t => getattr t
  end.
End Hamiltonians.
Arguments Hamiltonian K : clear implicits.

(** ** Gates, operations and what the generators yield *)

Section Operations.
Context {K Q : Type}.

Inductive Gate : Type :=
| XXYYGate (duration : K)
| ControlledXXYYGate (duration : K)
| RotZGate (rads : K)
| Rot11Gate (rads : K)
| Rot111Gate (rads : K).

(** A gate applied to its operands, [gate.on(...)].  An operand is a qubit
    or, where the caller never supplied the optional control qubit, [None]:
    the program hands its [control_qubit] over as it got it. *)
Record Operation : Type := on {
  gate : Gate;
  qubits : list (option Q)
}.

(** The values the generators yield: single operations, the calls of the
    swap network and of the Bogoliubov transformation with their
    arguments, and generator expressions with the operations they produce
    (and the exception that ends them, if any).  The optional
    [operation] of a swap network is the function of two indices and two
    qubits the caller passes; it is absent where the caller leaves the
    default.  What the swap network and the Bogoliubov transformation make
    of their arguments is not part of this file. *)
Inductive op_tree : Type :=
| Op (o : Operation)
| swap_network (qubits : list Q)
               (operation : option (nat -> nat -> Q -> Q -> result Operation))
               (fermionic : bool)
| bogoliubov_transform (qubits : list Q)
                       (transformation_matrix : ndarray K)
| generator (ops : list Operation) (r : result unit).
End Operations.
Arguments Gate K : clear implicits.
Arguments Operation K Q : clear implicits.
Arguments op_tree K Q : clear implicits.

(** ** Generators over an object

    A generator method reads the attributes of [self], yields values and
    may end with an exception; what it yielded before stays yielded. *)

Section Generators.
Variables S O : Type.

Definition Gen (A : Type) : Type := S -> list O * result A * S.

Definition ret {A : Type} (a : A) : Gen A := fun s => ([], Ok a, s).

Definition bind {A B : Type} (m : Gen A) (k : A -> Gen B) : Gen B :=
  fun s =>
    match m s with
    | (out, Ok a, s') =>
        match k a s' with
        | (out', r, s'') => (out ++ out', r, s'')
        end
    | (out, Raise e, s') => (out, Raise e, s')
    end.

Definition yield (o : O) : Gen unit := fun s => ([o], Ok tt, s).

Definition gets {A : Type} (f : S -> A) : Gen A :=
  fun s => ([], Ok (f s), s).

Definition lift {A : Type} (r : result A) : Gen A := fun s => ([], r, s).

(** [for x in l: body] *)
Fixpoint for_each {A : Type} (l : list A) (body : A -> Gen unit)
  : Gen unit :=
  match l with
  | [] => ret tt
  | x :: l' => bind (body x) (fun _ => for_each l' body)
  end.

(** [for x in l: body], where the body rebinds local variables [V]. *)
Fixpoint for_fold {A V : Type} (l : list A) (v : V)
         (body : A -> V -> Gen V) : Gen V :=
  match l with
  | [] => ret v
  | x :: l' => bind (body x v) (fun v' => for_fold l' v' body)
  end.

Definition yielded {A : Type} (x : list O * result A * S) : list O :=
  fst (fst x).
Definition returned {A : Type} (x : list O * result A * S) : result A :=
  snd (fst x).
Definition object_after {A : Type} (x : list O * result A * S) : S :=
  snd x.

(** What a loop yields over a list of terms, when each round yields
    [emit] of the term and of the local variables and rebinds them to
    [next]. *)
Fixpoint emitted {T V : Type} (emit : T -> V -> list O)
         (next : T -> V -> V) (terms : list T) (v : V) : list O :=
  match terms with
  | [] => []
  | t :: rest => emit t v ++ emitted emit next rest (next t v)
  end.

(** A generator that leaves the object as it found it. *)
Definition read_only {A : Type} (g : Gen A) : Prop :=
  forall s, object_after (g s) = s.
End Generators.
Arguments ret {S O A} a.
Arguments bind {S O A B} m k.
Arguments yield {S O} o.
Arguments gets {S O A} f.
Arguments lift {S O A} r.
Arguments for_each {S O A} l body.
Arguments for_fold {S O A V} l v body.
Arguments yielded {S O A} x.
Arguments returned {S O A} x.
Arguments object_after {S O A} x.
Arguments read_only {S O A} g.
Arguments emitted {O T V} emit next terms v.

Declare Scope gen_scope.
Delimit Scope gen_scope with gen.

Notation "x <- m ;; k" := (bind m (fun x => k))
  (at level 61, m at next level, right associativity) : gen_scope.
Notation "' p <- m ;; k" := (bind m (fun x => match x with p => k end))
  (at level 61, p pattern, m at next level, right associativity) : gen_scope.
Notation "m ;; k" := (bind m (fun _ => k))
  (at level 61, right associativity) : gen_scope.

(** ** The step object and its construction *)

Module LowRankTrotterStep.
Section Construction.
Context {K : Type} `{Numeric K} {Aux : Type}.

Record obj : Type := {
  truncation_threshold : option K;
  final_rank : option Z;
  eigenvalues : list K;
  one_body_squares : list (ndarray K);
  one_body_coefficients : ndarray K;
  constant : K;
  scaled_density_density_matrices : list (ndarray K);
  basis_change_matrices : list (ndarray K);
  hamiltonian : Hamiltonian K
}.

(** The two routines of OpenFermion the constructor calls. *)
Variable low_rank_two_body_decomposition :
  ndarray4 K -> option K -> option Z -> bool ->
  result (list K * list (ndarray K) * ndarray K * Aux).
Variable prepare_one_body_squared_evolution :
  ndarray K -> result (ndarray K * ndarray K).

(** The loop of the constructor, over the indices [js], appending to the
    two lists of the object. *)
Fixpoint prepare_terms (eigenvalues : list K)
         (one_body_squares : list (ndarray K)) (js : list nat)
         (scaled_density_density_matrices basis_change_matrices
            : list (ndarray K))
  : result (list (ndarray K) * list (ndarray K)) :=
  match js with
  | [] => Ok (scaled_density_density_matrices, basis_change_matrices)
  | j :: js' =>
      (one_body_square <- getitem one_body_squares j ;;
       ' (density_density_matrix, basis_change_matrix) <-
           prepare_one_body_squared_evolution one_body_square ;;
       eigenvalue <- getitem eigenvalues j ;;
       prepare_terms eigenvalues one_body_squares js'
         (scaled_density_density_matrices ++
            [numpy.real (numpy.scale eigenvalue density_density_matrix)])
         (basis_change_matrices ++ [basis_change_matrix]))%result
  end.

(** The base class constructor only keeps the Hamiltonian. *)
Definition __init__ (hamiltonian : Hamiltonian K)
           (truncation_threshold : option K) (final_rank : option Z)
           (spin_basis : bool) : result obj :=
  (two_body_tensor <- Hamiltonian_two_body_tensor hamiltonian ;;
   ' (eigenvalues, one_body_squares, one_body_correction, _) <-
       low_rank_two_body_decomposition
         two_body_tensor truncation_threshold final_rank spin_basis ;;
   one_body_tensor <- Hamiltonian_one_body_tensor hamiltonian ;;
   one_body_coefficients <- numpy.plus one_body_tensor one_body_correction ;;
   constant <- Hamiltonian_constant hamiltonian ;;
   ' (scaled_density_density_matrices, basis_change_matrices) <-
       prepare_terms eigenvalues one_body_squares
         (seq 0 (length eigenvalues)) [] [] ;;
   Ok {| truncation_threshold := truncation_threshold;
         final_rank := final_rank;
         eigenvalues := eigenvalues;
         one_body_squares := one_body_squares;
         one_body_coefficients := one_body_coefficients;
         constant := constant;
         scaled_density_density_matrices := scaled_density_density_matrices;
         basis_change_matrices := basis_change_matrices;
         hamiltonian := hamiltonian |})%result.
End Construction.
Arguments obj K : clear implicits.
End LowRankTrotterStep.

(** ** The asymmetric step

    Each yielded value is taken to be consumed before the generator
    resumes, the way an operation tree is flattened: the functions handed
    to the swap network and the generator expressions then see the local
    variables as they are at the [yield].  A yielded value that fails when
    it is consumed (a function of a swap network or a generator expression
    that raises) ends the run of the program there; a generator below
    keeps such a failure inside the value it yields and follows its own
    course, so what is stated of a run is stated where no yielded value
    fails: on as many qubits as the arrays have rows, or fewer. *)

Module AsymmetricLowRankTrotterStep.
Section Methods.
Context {K : Type} `{Numeric K} {Q : Type}.
Import LowRankTrotterStep.
Local Open Scope gen_scope.

Definition self : Type := LowRankTrotterStep.obj K.

Definition trotter_step (qubits : list Q) (time : K)
           (control_qubit : option Q) : Gen self (op_tree K Q) unit :=
  let n_qubits := length qubits in
  (* Simulate the off-diagonal one-body terms. *)
  coefficients <- gets one_body_coefficients ;;
  yield (swap_network qubits
           (Some (fun p q a b =>
              (c <- numpy.getitem2 coefficients p q ;;
               Ok (on (XXYYGate (mul (real_part c) time))
                      [Some a; Some b]))%result))
           true) ;;
  let qubits := rev qubits in
  (* Simulate the diagonal one-body terms. *)
  for_each (seq 0 n_qubits) (fun p =>
    coefficients <- gets one_body_coefficients ;;
    c <- lift (numpy.getitem2 coefficients p p) ;;
    qubit <- lift (getitem qubits p) ;;
    yield (Op (on (RotZGate (mul (neg (real_part c)) time))
                  [Some qubit]))) ;;
  (* Simulate each singular vector of the two-body terms. *)
  let prior_basis_matrix := numpy.identity n_qubits in
  n_terms <- gets (fun s => length (eigenvalues s)) ;;
  ' (qubits, prior_basis_matrix) <-
    for_fold (seq 0 n_terms) (qubits, prior_basis_matrix)
      (fun j '(qubits, prior_basis_matrix) =>
         (* Get the two-body coefficients and basis change matrix. *)
         matrices <- gets scaled_density_density_matrices ;;
         two_body_coefficients <- lift (getitem matrices j) ;;
         matrices <- gets basis_change_matrices ;;
         basis_change_matrix <- lift (getitem matrices j) ;;
         (* Perform basis change. *)
         let inverse_basis_matrix :=
           numpy.conj (numpy.T basis_change_matrix) in
         merged_basis_matrix <-
           lift (numpy.dot prior_basis_matrix inverse_basis_matrix) ;;
         yield (bogoliubov_transform qubits merged_basis_matrix) ;;
         (* Simulate the off-diagonal two-body terms. *)
         yield (swap_network qubits
                  (Some (fun p q a b =>
                     (c <- numpy.getitem2 two_body_coefficients p q ;;
                      Ok (on (Rot11Gate (mul (mul (of_int (-2)) c) time))
                             [Some a; Some b]))%result))
                  false) ;;
         let qubits := rev qubits in
         (* Simulate the diagonal two-body terms. *)
         for_each (seq 0 n_qubits) (fun p =>
           c <- lift (numpy.getitem2 two_body_coefficients p p) ;;
           qubit <- lift (getitem qubits p) ;;
           yield (Op (on (RotZGate (mul (neg c) time)) [Some qubit]))) ;;
         (* Update prior basis change matrix *)
         ret (qubits, basis_change_matrix)) ;;
  (* Undo final basis transformation *)
  yield (bogoliubov_transform qubits prior_basis_matrix).

Definition step_qubit_permutation (qubits : list Q)
           (control_qubit : option Q) (s : self)
  : (list Q * option Q) * self :=
  if truthy_nat (Nat.land (length (eigenvalues s)) 1)
  then ((qubits, None), s)
  else ((rev qubits, None), s).

Definition finish (qubits : list Q) (n_steps : Z)
           (control_qubit : option Q) (omit_final_swaps : bool)
  : Gen self (op_tree K Q) unit :=
  if negb omit_final_swaps then
    if truthy_Z (Z.land n_steps 1) then
      yield (swap_network qubits None true) ;;
      n_terms <- gets (fun s => length (eigenvalues s)) ;;
      if truthy_nat (Nat.land n_terms 1) then
        yield (swap_network qubits None false)
      else ret tt
    else ret tt
  else ret tt.
End Methods.
End AsymmetricLowRankTrotterStep.

(** ** The controlled asymmetric step *)

Module ControlledAsymmetricLowRankTrotterStep.
Section Methods.
Context {K : Type} `{Numeric K} {Q : Type}.
Import LowRankTrotterStep.
Local Open Scope gen_scope.

Definition self : Type := LowRankTrotterStep.obj K.

(** [yield (... for ... in ...)]: the generator expression is one yielded
    value; it produces its operations when it is consumed. *)
Definition yield_generator (g : Gen self (Operation K Q) unit)
  : Gen self (op_tree K Q) unit :=
  fun s =>
    match g s with
    | (ops, r, s') => ([generator ops r], Ok tt, s')
    end.

Definition trotter_step (qubits : list Q) (time : K)
           (control_qubit : option Q) : Gen self (op_tree K Q) unit :=
  let n_qubits := length qubits in
  (* Simulate the off-diagonal one-body terms. *)
  coefficients <- gets one_body_coefficients ;;
  yield (swap_network qubits
           (Some (fun p q a b =>
              (c <- numpy.getitem2 coefficients p q ;;
               Ok (on (ControlledXXYYGate (mul (real_part c) time))
                      [control_qubit; Some a; Some b]))%result))
           true) ;;
  let qubits := rev qubits in
  (* Simulate the diagonal one-body terms. *)
  yield_generator
    (for_each (seq 0 n_qubits) (fun j =>
       coefficients <- gets one_body_coefficients ;;
       c <- lift (numpy.getitem2 coefficients j j) ;;
       qubit <- lift (getitem qubits j) ;;
       yield (on (Rot11Gate (mul (neg (real_part c)) time))
                 [control_qubit; Some qubit]))) ;;
  (* Simulate each singular vector of the two-body terms. *)
  let prior_basis_matrix := numpy.identity n_qubits in
  n_terms <- gets (fun s => length (eigenvalues s)) ;;
  ' (qubits, prior_basis_matrix) <-
    for_fold (seq 0 n_terms) (qubits, prior_basis_matrix)
      (fun j '(qubits, prior_basis_matrix) =>
         (* Get the two-body coefficients and basis change matrix. *)
         matrices <- gets scaled_density_density_matrices ;;
         two_body_coefficients <- lift (getitem matrices j) ;;
         matrices <- gets basis_change_matrices ;;
         basis_change_matrix <- lift (getitem matrices j) ;;
         (* Perform basis change *)
         let inverse_basis_matrix :=
           numpy.conj (numpy.T basis_change_matrix) in
         merged_basis_matrix <-
           lift (numpy.dot prior_basis_matrix inverse_basis_matrix) ;;
         yield (bogoliubov_transform qubits merged_basis_matrix) ;;
         (* Simulate the off-diagonal two-body terms. *)
         yield (swap_network qubits
                  (Some (fun p q a b =>
                     (c <- numpy.getitem2 two_body_coefficients p q ;;
                      Ok (on (Rot111Gate (mul (mul (of_int (-2)) c) time))
                             [control_qubit; Some a; Some b]))%result))
                  false) ;;
         let qubits := rev qubits in
         (* Simulate the diagonal two-body terms. *)
         yield_generator
           (for_each (seq 0 n_qubits) (fun k =>
              c <- lift (numpy.getitem2 two_body_coefficients k k) ;;
              qubit <- lift (getitem qubits k) ;;
              yield (on (Rot11Gate (mul (neg c) time))
                        [control_qubit; Some qubit]))) ;;
         (* Update prior basis change matrix. *)
         ret (qubits, basis_change_matrix)) ;;
  (* Undo final basis transformation. *)
  yield (bogoliubov_transform qubits prior_basis_matrix) ;;
  (* Apply phase from constant term *)
  constant <- gets constant ;;
  yield (Op (on (RotZGate (mul (neg constant) time)) [control_qubit])).

Definition step_qubit_permutation (qubits : list Q)
           (control_qubit : option Q) (s : self)
  : (list Q * option Q) * self :=
  if truthy_nat (Nat.land (length (eigenvalues s)) 1)
  then ((qubits, control_qubit), s)
  else ((rev qubits, control_qubit), s).

Definition finish (qubits : list Q) (n_steps : Z)
           (control_qubit : option Q) (omit_final_swaps : bool)
  : Gen self (op_tree K Q) unit :=
  if negb omit_final_swaps then
    if truthy_Z (Z.land n_steps 1) then
      yield (swap_network qubits None true) ;;
      n_terms <- gets (fun s => length (eigenvalues s)) ;;
      if truthy_nat (Nat.land n_terms 1) then
        yield (swap_network qubits None false)
      else ret tt
    else ret tt
  else ret tt.
End Methods.
End ControlledAsymmetricLowRankTrotterStep.

(** ** The algorithm: the factory of steps *)

Module LowRankTrotterAlgorithm.
Section Factory.
Context {K : Type} `{Numeric K} {Aux : Type}.

Variable low_rank_two_body_decomposition :
  ndarray4 K -> option K -> option Z -> bool ->
  result (list K * list (ndarray K) * ndarray K * Aux).
Variable prepare_one_body_squared_evolution :
  ndarray K -> result (ndarray K * ndarray K).

Record obj : Type := {
  truncation_threshold : option K;
  final_rank : option Z;
  spin_basis : bool
}.

Definition supported_types : list HamiltonianType :=
  [InteractionOperatorType].

(** The steps a factory method may return. *)
Inductive TrotterStep : Type :=
| Asymmetric (step : LowRankTrotterStep.obj K)
| ControlledAsymmetric (step : LowRankTrotterStep.obj K).

(** The factory methods return an optional step: [None] is the value
    that tells the caller the algorithm does not apply. *)
Definition asymmetric (self : obj) (hamiltonian : Hamiltonian K)
  : result (option TrotterStep) :=
  (step <- LowRankTrotterStep.__init__
             low_rank_two_body_decomposition
             prepare_one_body_squared_evolution
             hamiltonian (truncation_threshold self) (final_rank self)
             (spin_basis self) ;;
   Ok (Some (Asymmetric step)))%result.

Definition controlled_asymmetric (self : obj) (hamiltonian : Hamiltonian K)
  : result (option TrotterStep) :=
  (step <- LowRankTrotterStep.__init__
             low_rank_two_body_decomposition
             prepare_one_body_squared_evolution
             hamiltonian (truncation_threshold self) (final_rank self)
             (spin_basis self) ;;
   Ok (Some (ControlledAsymmetric step)))%result.
End Factory.
Arguments obj K : clear implicits.
Arguments TrotterStep K : clear implicits.
End LowRankTrotterAlgorithm.

(** ** What a step is expected to yield

    The sequences of section 4.3 and 4.4 of the specification, written by
    recursion on the decomposition terms instead of loops over indices. *)

Section Expected.
Context {K : Type} `{Numeric K} {Q : Type}.
Import LowRankTrotterStep.

(** A step whose arrays all are [n] by [n] and whose two lists have one
    entry per eigenvalue. *)
Definition well_formed (n : nat) (s : LowRankTrotterStep.obj K) : bool :=
  numpy.has_shape n n (one_body_coefficients s)
  && (length (scaled_density_density_matrices s) =? length (eigenvalues s))
  && (length (basis_change_matrices s) =? length (eigenvalues s))
  && forallb (numpy.has_shape n n) (scaled_density_density_matrices s)
  && forallb (numpy.has_shape n n) (basis_change_matrices s).

(** One value per qubit, built from the qubit and its position. *)
Definition per_qubit {O : Type} (f : nat -> Q -> O) (qubits : list Q)
  : list O :=
  map (fun pq => f (fst pq) (snd pq)) (combine (seq 0 (length qubits)) qubits).

(** What one decomposition term yields: the change of basis, the swap
    network of the off-diagonal two-body terms, and the rotations of the
    diagonal ones on the reversed qubits. *)
Definition asymmetric_term (time : K) (term : ndarray K * ndarray K)
           (qubits : list Q) (prior_basis_matrix : ndarray K)
  : list (op_tree K Q) :=
  let two_body_coefficients := fst term in
  let basis_change_matrix := snd term in
  bogoliubov_transform qubits
    (numpy.product prior_basis_matrix
       (numpy.conj (numpy.T basis_change_matrix)))
  :: swap_network qubits
       (Some (fun p q a b =>
          (c <- numpy.getitem2 two_body_coefficients p q ;;
           Ok (on (Rot11Gate (mul (mul (of_int (-2)) c) time))
                  [Some a; Some b]))%result))
       false
  :: per_qubit
       (fun p qubit =>
          Op (on (RotZGate
                    (mul (neg (numpy.item two_body_coefficients p p)) time))
                 [Some qubit]))
       (rev qubits).

Fixpoint asymmetric_terms (time : K)
         (terms : list (ndarray K * ndarray K))
         (qubits : list Q) (prior_basis_matrix : ndarray K)
  : list (op_tree K Q) :=
  match terms with
  | [] => [bogoliubov_transform qubits prior_basis_matrix]
  | term :: rest =>
      asymmetric_term time term qubits prior_basis_matrix
      ++ asymmetric_terms time rest (rev qubits) (snd term)
  end.

Definition asymmetric_step (s : LowRankTrotterStep.obj K)
           (qubits : list Q) (time : K) : list (op_tree K Q) :=
  swap_network qubits
    (Some (fun p q a b =>
       (c <- numpy.getitem2 (one_body_coefficients s) p q ;;
        Ok (on (XXYYGate (mul (real_part c) time))
               [Some a; Some b]))%result))
    true
  :: per_qubit
       (fun p qubit =>
          Op (on (RotZGate
                    (mul (neg (real_part
                                (numpy.item (one_body_coefficients s) p p)))
                         time))
                 [Some qubit]))
       (rev qubits)
  ++ asymmetric_terms time
       (combine (scaled_density_density_matrices s) (basis_change_matrices s))
       (rev qubits) (numpy.identity (length qubits)).

Definition controlled_term (time : K) (control_qubit : option Q)
           (term : ndarray K * ndarray K)
           (qubits : list Q) (prior_basis_matrix : ndarray K)
  : list (op_tree K Q) :=
  let two_body_coefficients := fst term in
  let basis_change_matrix := snd term in
  [bogoliubov_transform qubits
     (numpy.product prior_basis_matrix
        (numpy.conj (numpy.T basis_change_matrix)));
   swap_network qubits
     (Some (fun p q a b =>
        (c <- numpy.getitem2 two_body_coefficients p q ;;
         Ok (on (Rot111Gate (mul (mul (of_int (-2)) c) time))
                [control_qubit; Some a; Some b]))%result))
     false;
   generator
     (per_qubit
        (fun k qubit =>
           on (Rot11Gate
                 (mul (neg (numpy.item two_body_coefficients k k)) time))
              [control_qubit; Some qubit])
        (rev qubits))
     (Ok tt)].

Fixpoint controlled_terms (time : K) (control_qubit : option Q)
         (terms : list (ndarray K * ndarray K))
         (qubits : list Q) (prior_basis_matrix : ndarray K)
  : list (op_tree K Q) :=
  match terms with
  | [] => [bogoliubov_transform qubits prior_basis_matrix]
  | term :: rest =>
      controlled_term time control_qubit term qubits prior_basis_matrix
      ++ controlled_terms time control_qubit rest (rev qubits) (snd term)
  end.

Definition controlled_step (s : LowRankTrotterStep.obj K)
           (qubits : list Q) (time : K) (control_qubit : option Q)
  : list (op_tree K Q) :=
  swap_network qubits
    (Some (fun p q a b =>
       (c <- numpy.getitem2 (one_body_coefficients s) p q ;;
        Ok (on (ControlledXXYYGate (mul (real_part c) time))
               [control_qubit; Some a; Some b]))%result))
    true
  :: generator
       (per_qubit
          (fun j qubit =>
             on (Rot11Gate
                   (mul (neg (real_part
                               (numpy.item (one_body_coefficients s) j j)))
                        time))
                [control_qubit; Some qubit])
          (rev qubits))
       (Ok tt)
  :: controlled_terms time control_qubit
       (combine (scaled_density_density_matrices s) (basis_change_matrices s))
       (rev qubits) (numpy.identity (length qubits))
  ++ [Op (on (RotZGate (mul (neg (constant s)) time)) [control_qubit])].

(** The matrices of the yielded basis transformations, in order. *)
Fixpoint bogoliubov_matrices (items : list (op_tree K Q))
  : list (ndarray K) :=
  match items with
  | [] => []
  | bogoliubov_transform _ m :: rest => m :: bogoliubov_matrices rest
  | _ :: rest => bogoliubov_matrices rest
  end.

(** The matrices the basis transformations are to carry: for each term
    the product of the prior basis matrix and the conjugate transpose of
    the term's basis change matrix, which then becomes the prior one; at
    the end the last prior basis matrix. *)
Fixpoint basis_chain (prior_basis_matrix : ndarray K)
         (basis_change_matrices : list (ndarray K))
  : list (result (ndarray K)) :=
  match basis_change_matrices with
  | [] => [Ok prior_basis_matrix]
  | basis_change_matrix :: rest =>
      numpy.dot prior_basis_matrix
                (numpy.conj (numpy.T basis_change_matrix))
      :: basis_chain basis_change_matrix rest
  end.

(** The kinds of yielded values the specification tells apart. *)
Inductive kind : Type :=
| FermionicSwapNetworkPass
| SwapNetworkPass
| BasisTransformation
| ZRotation
| OtherOperation
| GeneratorExpression.

Definition kind_of (t : op_tree K Q) : kind :=
  match t with
  | swap_network _ _ true => FermionicSwapNetworkPass
  | swap_network _ _ false => SwapNetworkPass
  | bogoliubov_transform _ _ => BasisTransformation
  | Op (on (RotZGate _) [_]) => ZRotation
  | Op _ => OtherOperation
  | generator _ _ => GeneratorExpression
  end.

(** The passes of a swap network among yielded values. *)
Definition is_pass (fermionic : bool) (t : op_tree K Q) : bool :=
  match t with
  | swap_network _ _ f => Bool.eqb f fermionic
  | _ => false
  end.

Definition passes (fermionic : bool) (items : list (op_tree K Q)) : nat :=
  length (filter (is_pass fermionic) items).

(** Modelled from the spec: the swap network itself is not among the
    sources; each of its passes leaves the ordering of the qubits
    reversed, and nothing else reorders them. *)
Fixpoint ordering_after (items : list (op_tree K Q)) (ordering : list Q)
  : list Q :=
  match items with
  | [] => ordering
  | swap_network _ _ _ :: rest => ordering_after rest (rev ordering)
  | _ :: rest => ordering_after rest ordering
  end.

(** The ordering after [n] steps, as the step itself reports it. *)
Fixpoint ordering_after_steps (s : LowRankTrotterStep.obj K) (n : nat)
         (ordering : list Q) : list Q :=
  match n with
  | O => ordering
  | S n' =>
      ordering_after_steps s n'
        (fst (fst (AsymmetricLowRankTrotterStep.step_qubit_permutation
                     ordering None s)))
  end.
End Expected.

(** ** A concrete instance

    Gaussian integers as scalars, a Hamiltonian on two orbitals, and a
    decomposition that returns as many terms as the final rank asks for. *)

Module Sample.
Record Zi : Type := { re : Z; im : Z }.

Definition Zi_of (z : Z) : Zi := {| re := z; im := 0 |}.

#[global] Instance Zi_Numeric : Numeric Zi := {
  zero := Zi_of 0;
  one := Zi_of 1;
  of_int := Zi_of;
  add := fun a b => {| re := (re a + re b)%Z; im := (im a + im b)%Z |};
  mul := fun a b => {| re := (re a * re b - im a * im b)%Z;
                       im := (re a * im b + im a * re b)%Z |};
  neg := fun a => {| re := (- re a)%Z; im := (- im a)%Z |};
  conjugate := fun a => {| re := re a; im := (- im a)%Z |};
  real_part := fun a => {| re := re a; im := 0 |}
}.

(** The array with the given rows. *)
Definition array (rows : list (list Z)) : ndarray Zi :=
  {| numpy.nrows := length rows;
     numpy.ncols := length (hd [] rows);
     numpy.item := fun i j => Zi_of (nth j (nth i rows []) 0%Z) |}.

Definition two_body : ndarray4 Zi :=
  {| numpy.dim4 := 2;
     numpy.item4 := fun p q r s =>
       if (p =? s) && (q =? r) then Zi_of 1 else Zi_of 0 |}.

Definition hamiltonian : Hamiltonian Zi :=
  InteractionOperator (Zi_of 3) (array [[1; 2]; [2; 5]]%Z) two_body.

(** An object of another class, without any of the attributes. *)
Definition other_hamiltonian : Hamiltonian Zi :=
  OtherHamiltonian None None None.

Definition decomposition (t : ndarray4 Zi) (truncation_threshold : option Zi)
           (final_rank : option Z) (spin_basis : bool)
  : result (list Zi * list (ndarray Zi) * ndarray Zi * unit) :=
  let rank := match final_rank with
              | Some r => Z.to_nat r
              | None => 1
              end in
  Ok (repeat (Zi_of 2) rank, repeat (array [[1; 0]; [0; 1]]%Z) rank,
      array [[10; 20]; [30; 40]]%Z, tt).

Definition prepare (m : ndarray Zi) : result (ndarray Zi * ndarray Zi) :=
  Ok (array [[7; 1]; [1; 9]]%Z, array [[0; 1]; [1; 0]]%Z).

Definition algorithm (rank : Z) : LowRankTrotterAlgorithm.obj Zi :=
  {| LowRankTrotterAlgorithm.truncation_threshold := None;
     LowRankTrotterAlgorithm.final_rank := Some rank;
     LowRankTrotterAlgorithm.spin_basis := true |}.

(** A step with [rank] terms, as the constructor leaves it. *)
Definition step (rank : nat) : LowRankTrotterStep.obj Zi :=
  {| LowRankTrotterStep.truncation_threshold := None;
     LowRankTrotterStep.final_rank := Some (Z.of_nat rank);
     LowRankTrotterStep.eigenvalues := repeat (Zi_of 2) rank;
     LowRankTrotterStep.one_body_squares :=
       repeat (array [[1; 0]; [0; 1]]%Z) rank;
     LowRankTrotterStep.one_body_coefficients :=
       {| numpy.nrows := 2; numpy.ncols := 2;
          numpy.item := fun i j =>
            add (numpy.item (array [[1; 2]; [2; 5]]%Z) i j)
                (numpy.item (array [[10; 20]; [30; 40]]%Z) i j) |};
     LowRankTrotterStep.constant := Zi_of 3;
     LowRankTrotterStep.scaled_density_density_matrices :=
       repeat (numpy.real (numpy.scale (Zi_of 2) (array [[7; 1]; [1; 9]]%Z)))
              rank;
     LowRankTrotterStep.basis_change_matrices :=
       repeat (array [[0; 1]; [1; 0]]%Z) rank;
     LowRankTrotterStep.hamiltonian := hamiltonian |}.

(** Two qubits, named by their positions on a line. *)
Definition qubits : list nat := [0; 1].
End Sample.

(** ** Generator expressions of the controlled step *)

Section ControlledGenerators.
Context {K Q : Type}.

(** The generator expressions of the controlled step: as many controlled
    rotations as qubits, none failing. *)
Definition full_generators (control_qubit : option Q) (n : nat)
           (t : op_tree K Q) : Prop :=
  match t with
  | generator ops r =>
      r = Ok tt
      /\ length ops = n
      /\ Forall (fun o => exists rads qubit,
                     o = on (Rot11Gate rads) [control_qubit; Some qubit]) ops
  | _ => True
  end.
End ControlledGenerators.

(** ** Angle conversion

    [openfermioncirq/gates/angle.py].  Division and [numpy.pi] are not among
    the operations the Trotter steps use and are parameters here, as is
    the conversion routine of cirq the function ends with.  A half turns
    value is a symbol or a number. *)

Module angle.
Section Conversion.
Context {K : Type} `{Numeric K} {Symbol : Type}.

Inductive half_turns_value : Type :=
| symbol (name : Symbol)
| number (x : K).

Variable divide : K -> K -> K.
Variable pi : K.
Variable cirq_chosen_angle_to_half_turns :
  option half_turns_value -> option K -> option K -> K ->
  result half_turns_value.

(** [e is not None] *)
Definition is_not_None {A : Type} (e : option A) : bool :=
  match e with
  | Some _ => true
  | None => false
  end.

(** [len([1 for e in [half_turns, rads, degs, duration] if e is not None])] *)
Definition specified (half_turns : option half_turns_value)
           (rads degs duration : option K) : nat :=
  length (filter (fun b : bool => b)
                 [is_not_None half_turns; is_not_None rads;
                  is_not_None degs; is_not_None duration]).

Definition chosen_angle_to_half_turns
           (half_turns : option half_turns_value)
           (rads degs duration : option K) (default : K)
  : result half_turns_value :=
  if 1 <? specified half_turns rads degs duration then Raise ValueError
  else
    match duration with
    | Some duration => Ok (number (divide (mul (of_int 2) duration) pi))
    | None =>
        cirq_chosen_angle_to_half_turns half_turns rads degs default
    end.
End Conversion.
Arguments half_turns_value K Symbol : clear implicits.
End angle.

(** * Properties *)

(** ** The sample step is what the constructor builds *)

Lemma sample_step_constructed :
  LowRankTrotterStep.__init__ Sample.decomposition Sample.prepare
    Sample.hamiltonian None (Some 2%Z) true = Ok (Sample.step 2)
  /\ LowRankTrotterStep.__init__ Sample.decomposition Sample.prepare
       Sample.hamiltonian None (Some 1%Z) true = Ok (Sample.step 1).
Proof. split; reflexivity. Qed.

(** ** Generators *)

Section GeneratorFacts.
Variables S O : Type.

Lemma bind_ok {A B : Type} (m : Gen S O A) (k : A -> Gen S O B)
      (s s' s'' : S) (out out' : list O) (a : A) (r : result B) :
  m s = (out, Ok a, s') ->
  k a s' = (out', r, s'') ->
  bind m k s = (out ++ out', r, s'').
Proof.
  intros Hm Hk. unfold bind. rewrite Hm, Hk. reflexivity.
Qed.

Lemma read_only_ret {A : Type} (a : A) : read_only (@ret S O A a).
Proof. intro s. reflexivity. Qed.

Lemma read_only_yield (o : O) : read_only (@yield S O o).
Proof. intro s. reflexivity. Qed.

Lemma read_only_gets {A : Type} (f : S -> A) : read_only (@gets S O A f).
Proof. intro s. reflexivity. Qed.

Lemma read_only_lift {A : Type} (r : result A) : read_only (@lift S O A r).
Proof. intro s. reflexivity. Qed.

Lemma read_only_bind {A B : Type} (m : Gen S O A) (k : A -> Gen S O B) :
  read_only m -> (forall a, read_only (k a)) -> read_only (bind m k).
Proof.
  intros Hm Hk s. unfold bind, object_after.
  specialize (Hm s). unfold object_after in Hm.
  destruct (m s) as [[out [a | e]] s']; cbn in *; subst.
  - specialize (Hk a s). unfold object_after in Hk.
    destruct (k a s) as [[out' r] s'']. exact Hk.
  - reflexivity.
Qed.

Lemma read_only_for_each {A : Type} (l : list A) (body : A -> Gen S O unit) :
  (forall x, read_only (body x)) -> read_only (for_each l body).
Proof.
  intro Hbody. induction l as [| x l IH]; cbn.
  - apply read_only_ret.
  - apply read_only_bind; [apply Hbody | intros _; exact IH].
Qed.

Lemma read_only_for_fold {A V : Type} (l : list A)
      (body : A -> V -> Gen S O V) :
  (forall x v, read_only (body x v)) ->
  forall v, read_only (for_fold l v body).
Proof.
  intro Hbody. induction l as [| x l IH]; intro v; cbn.
  - apply read_only_ret.
  - apply read_only_bind; [apply Hbody | intro v'; apply IH].
Qed.

(** A loop over positions whose body yields one value per position. *)
Lemma for_each_combine {X : Type} (body : nat -> Gen S O unit)
      (f : nat -> X -> O) (s : S) :
  forall (idx : list nat) (xs : list X),
    length idx = length xs ->
    (forall p x, In (p, x) (combine idx xs) ->
                 body p s = ([f p x], Ok tt, s)) ->
    for_each idx body s
    = (map (fun px => f (fst px) (snd px)) (combine idx xs), Ok tt, s).
Proof.
  induction idx as [| p idx IH]; intros [| x xs] Hlen Hbody;
    try discriminate; cbn.
  - reflexivity.
  - etransitivity.
    + eapply bind_ok.
      * apply Hbody. left. reflexivity.
      * apply (IH xs); [cbn in Hlen; lia |].
        intros p' x' Hin. apply Hbody. right. exact Hin.
    + reflexivity.
Qed.

(** A loop over the positions of a list of terms, each round yielding
    what [emit] tells and rebinding the local variables as [next]
    tells, as long as [Inv] holds of them. *)
Lemma for_fold_terms {T V : Type} (body : nat -> V -> Gen S O V)
      (emit : T -> V -> list O) (next : T -> V -> V)
      (Inv : V -> Prop) (s : S) :
  forall (terms : list T) (k : nat) (v : V),
    Inv v ->
    (forall i t v, nth_error terms i = Some t -> Inv v ->
                   body (k + i) v s = (emit t v, Ok (next t v), s)
                   /\ Inv (next t v)) ->
    for_fold (seq k (length terms)) v body s
    = (emitted emit next terms v,
       Ok (fold_left (fun v t => next t v) terms v), s)
      /\ Inv (fold_left (fun v t => next t v) terms v).
Proof.
  induction terms as [| t terms IH]; intros k v Hv Hbody; cbn.
  - split; [reflexivity | exact Hv].
  - destruct (Hbody 0 t v eq_refl Hv) as [Hrun Hnext].
    rewrite Nat.add_0_r in Hrun.
    destruct (IH (Datatypes.S k) (next t v) Hnext) as [Hrest Hinv].
    + intros i t' v' Hi Hv'.
      replace (Datatypes.S k + i) with (k + Datatypes.S i) by lia.
      apply Hbody; assumption.
    + split; [| exact Hinv].
      eapply bind_ok; [exact Hrun | exact Hrest].
Qed.
End GeneratorFacts.

(** ** Lists and arrays *)

Lemma In_combine_seq {X : Type} (xs : list X) :
  forall k p x,
    In (p, x) (combine (seq k (length xs)) xs) ->
    nth_error xs (p - k) = Some x /\ k <= p < k + length xs.
Proof.
  induction xs as [| x0 xs IH]; intros k p x Hin; cbn in Hin.
  - contradiction.
  - destruct Hin as [Heq | Hin].
    + inversion Heq; subst. rewrite Nat.sub_diag. cbn.
      split; [reflexivity | lia].
    + destruct (IH _ _ _ Hin) as [Hnth Hle].
      replace (p - k) with (S (p - S k)) by lia. cbn.
      split; [exact Hnth | lia].
Qed.

Lemma nth_error_combine {X Y : Type} (xs : list X) :
  forall (ys : list Y) i x y,
    nth_error (combine xs ys) i = Some (x, y) ->
    nth_error xs i = Some x /\ nth_error ys i = Some y.
Proof.
  induction xs as [| x0 xs IH]; intros [| y0 ys] [| i] x y Hnth;
    cbn in Hnth; try discriminate.
  - inversion Hnth; subst. split; reflexivity.
  - cbn. apply IH. exact Hnth.
Qed.

Lemma forallb_nth_error {X : Type} (P : X -> bool) (xs : list X) i x :
  forallb P xs = true -> nth_error xs i = Some x -> P x = true.
Proof.
  intros Hall Hnth. rewrite forallb_forall in Hall.
  apply Hall. eapply nth_error_In. exact Hnth.
Qed.

Lemma getitem_ok {X : Type} (xs : list X) i x :
  nth_error xs i = Some x -> getitem xs i = Ok x.
Proof. intro Hnth. unfold getitem. rewrite Hnth. reflexivity. Qed.

Lemma for_each_per_qubit {S O Q : Type} (body : nat -> Gen S O unit)
      (f : nat -> Q -> O) (s : S) (n : nat) (qubits : list Q) :
  length qubits = n ->
  (forall p x, nth_error qubits p = Some x -> p < n ->
               body p s = ([f p x], Ok tt, s)) ->
  for_each (seq 0 n) body s = (per_qubit f qubits, Ok tt, s).
Proof.
  intros Hlen Hbody. subst n. unfold per_qubit. apply for_each_combine.
  - apply length_seq.
  - intros p x Hin. destruct (In_combine_seq _ _ _ _ Hin) as [Hnth Hlt].
    rewrite Nat.sub_0_r in Hnth. apply Hbody; [exact Hnth | lia].
Qed.

Section ArrayFacts.
Context {K : Type} `{Numeric K}.

Lemma has_shape_true (r c : nat) (m : ndarray K) :
  numpy.has_shape r c m = true -> numpy.nrows m = r /\ numpy.ncols m = c.
Proof.
  unfold numpy.has_shape. intro Hs. apply andb_prop in Hs.
  destruct Hs as [Hr Hc]. apply Nat.eqb_eq in Hr, Hc. split; assumption.
Qed.

Lemma getitem2_ok (m : ndarray K) (p q : nat) :
  p < numpy.nrows m -> q < numpy.ncols m ->
  numpy.getitem2 m p q = Ok (numpy.item m p q).
Proof.
  intros Hp Hq. unfold numpy.getitem2.
  apply Nat.ltb_lt in Hp, Hq. rewrite Hp, Hq. reflexivity.
Qed.

Lemma dot_ok (a b : ndarray K) :
  numpy.ncols a = numpy.nrows b -> numpy.dot a b = Ok (numpy.product a b).
Proof.
  intro Heq. unfold numpy.dot. rewrite Heq, Nat.eqb_refl. reflexivity.
Qed.
End ArrayFacts.

(** ** What a step yields *)

Section Steps.
Context {K : Type} `{Numeric K} {Q : Type}.
Import LowRankTrotterStep.

Lemma well_formed_true (n : nat) (s : LowRankTrotterStep.obj K) :
  well_formed n s = true ->
  numpy.nrows (one_body_coefficients s) = n
  /\ numpy.ncols (one_body_coefficients s) = n
  /\ length (scaled_density_density_matrices s) = length (eigenvalues s)
  /\ length (basis_change_matrices s) = length (eigenvalues s)
  /\ forallb (numpy.has_shape n n) (scaled_density_density_matrices s) = true
  /\ forallb (numpy.has_shape n n) (basis_change_matrices s) = true.
Proof.
  unfold well_formed. intro Hwf.
  apply andb_prop in Hwf. destruct Hwf as [Hwf Hbasis].
  apply andb_prop in Hwf. destruct Hwf as [Hwf Hscaled].
  apply andb_prop in Hwf. destruct Hwf as [Hwf Hlb].
  apply andb_prop in Hwf. destruct Hwf as [Hshape Hls].
  apply has_shape_true in Hshape. destruct Hshape as [Hrows Hcols].
  apply Nat.eqb_eq in Hls, Hlb. repeat split; assumption.
Qed.

(** The terms of a well formed step, by position. *)
Lemma term_at (n : nat) (s : LowRankTrotterStep.obj K) (i : nat)
      (term : ndarray K * ndarray K) :
  well_formed n s = true ->
  nth_error (combine (scaled_density_density_matrices s)
                     (basis_change_matrices s)) i = Some term ->
  getitem (scaled_density_density_matrices s) i = Ok (fst term)
  /\ getitem (basis_change_matrices s) i = Ok (snd term)
  /\ numpy.nrows (fst term) = n /\ numpy.ncols (fst term) = n
  /\ numpy.nrows (snd term) = n /\ numpy.ncols (snd term) = n.
Proof.
  intros Hwf Hnth.
  destruct (well_formed_true _ _ Hwf)
    as (_ & _ & _ & _ & Hscaled & Hbasis).
  destruct term as [coefficients basis].
  apply nth_error_combine in Hnth. destruct Hnth as [Hc Hb]. cbn [fst snd].
  pose proof (forallb_nth_error _ _ _ Hscaled Hc) as Hsc.
  pose proof (forallb_nth_error _ _ _ Hbasis Hb) as Hsb.
  apply has_shape_true in Hsc, Hsb.
  destruct Hsc as [? ?], Hsb as [? ?].
  repeat split; auto using getitem_ok.
Qed.

Lemma terms_length (n : nat) (s : LowRankTrotterStep.obj K) :
  well_formed n s = true ->
  length (combine (scaled_density_density_matrices s)
                  (basis_change_matrices s)) = length (eigenvalues s).
Proof.
  intro Hwf.
  destruct (well_formed_true _ _ Hwf) as (_ & _ & Hls & Hlb & _).
  rewrite length_combine, Hls, Hlb. apply Nat.min_id.
Qed.

Lemma lift_ok {O A : Type} (r : result A) (a : A)
      (s : LowRankTrotterStep.obj K) :
  r = Ok a -> @lift _ O A r s = ([], Ok a, s).
Proof. intro Hr. subst r. reflexivity. Qed.

Lemma yield_pair {O A B : Type} (x : A * B) (f : A -> B -> O)
      (s : LowRankTrotterStep.obj K) :
  (let (a, b) := x in @yield (LowRankTrotterStep.obj K) O (f a b)) s
  = ([f (fst x) (snd x)], Ok tt, s).
Proof. destruct x. reflexivity. Qed.

Lemma asymmetric_terms_emitted (time : K) :
  forall (terms : list (ndarray K * ndarray K)) (v : list Q * ndarray K),
    emitted (fun t v => asymmetric_term time t (fst v) (snd v))
            (fun t v => (rev (fst v), snd t)) terms v
    ++ [bogoliubov_transform
          (fst (fold_left (fun v t => (rev (fst v), snd t)) terms v))
          (snd (fold_left (fun v t => (rev (fst v), snd t)) terms v))]
    = asymmetric_terms time terms (fst v) (snd v).
Proof.
  induction terms as [| term terms IH]; intros [qubits prior].
  - reflexivity.
  - cbn [emitted asymmetric_terms fold_left fst snd].
    specialize (IH (rev qubits, snd term)). cbn [fst snd] in IH.
    rewrite <- IH, <- app_assoc. reflexivity.
Qed.

(** On a well formed step and as many qubits as its arrays have rows, the
    asymmetric step raises nothing and yields the expected sequence. *)
Lemma asymmetric_trotter_step_yields (n : nat)
      (s : LowRankTrotterStep.obj K) (qubits : list Q) (time : K)
      (control_qubit : option Q) :
  well_formed n s = true ->
  length qubits = n ->
  AsymmetricLowRankTrotterStep.trotter_step qubits time control_qubit s
  = (asymmetric_step s qubits time, Ok tt, s).
Proof.
  intros Hwf Hlen.
  destruct (well_formed_true _ _ Hwf) as (Hrows & Hcols & _).
  pose proof (terms_length _ _ Hwf) as Hterms.
  unfold AsymmetricLowRankTrotterStep.trotter_step.
  etransitivity.
  - eapply bind_ok; [reflexivity |].
    eapply bind_ok; [reflexivity |].
    eapply bind_ok.
    { apply for_each_per_qubit with
        (f := fun p qubit =>
                Op (on (RotZGate
                          (mul (neg (real_part
                                       (numpy.item (one_body_coefficients s)
                                                   p p)))
                               time))
                       [Some qubit]))
        (qubits := rev qubits).
      - apply length_rev.
      - intros p x Hnth Hp. unfold bind, gets, lift, yield.
        rewrite getitem2_ok by lia. rewrite (getitem_ok _ _ Hnth).
        reflexivity. }
    eapply bind_ok; [reflexivity |].
    cbv beta. rewrite <- Hterms.
    match goal with
    | |- context [for_fold _ _ ?b] => set (body := b)
    end.
    destruct (@for_fold_terms _ _ _ _ body
                (fun t v => asymmetric_term time t (fst v) (snd v))
                (fun t v => (rev (fst v), snd t))
                (fun v => length (fst v) = n /\ numpy.ncols (snd v) = n)
                s
                (combine (scaled_density_density_matrices s)
                         (basis_change_matrices s))
                0 (rev qubits, numpy.identity (length qubits)))
      as [Hloop _].
    { cbn. rewrite length_rev. split; assumption. }
    { intros i term [qubits' prior] Hnth [Hq Hp]. cbn [fst snd] in *.
      destruct (term_at _ _ _ Hwf Hnth)
        as (Hc & Hb & Hcr & Hcc & Hbr & Hbc).
      split; [| rewrite length_rev; split; assumption].
      subst body. cbn beta iota. cbn [Nat.add].
      etransitivity.
      - eapply bind_ok; [reflexivity |].
        eapply bind_ok; [apply lift_ok; exact Hc |].
        eapply bind_ok; [reflexivity |].
        eapply bind_ok; [apply lift_ok; exact Hb |].
        eapply bind_ok;
          [apply lift_ok; apply dot_ok; cbn; congruence |].
        eapply bind_ok; [reflexivity |].
        eapply bind_ok; [reflexivity |].
        eapply bind_ok; [| reflexivity].
        apply for_each_per_qubit with
          (f := fun p qubit =>
                  Op (on (RotZGate
                            (mul (neg (numpy.item (fst term) p p)) time))
                         [Some qubit]))
          (qubits := rev qubits').
        + rewrite length_rev. congruence.
        + intros p x Hnth' Hlt. unfold bind, lift, yield.
          rewrite getitem2_ok by lia. rewrite (getitem_ok _ _ Hnth').
          reflexivity.
      - unfold asymmetric_term. cbn [app]. rewrite app_nil_r.
        reflexivity. }
    eapply bind_ok; [exact Hloop |].
    apply (yield_pair _ (fun a b => bogoliubov_transform a b)).
  - unfold asymmetric_step. cbn [app].
    pose proof (asymmetric_terms_emitted time
                  (combine (scaled_density_density_matrices s)
                           (basis_change_matrices s))
                  (rev qubits, numpy.identity (length qubits))) as Hterms'.
    cbn [fst snd] in Hterms'. rewrite <- Hterms'. reflexivity.
Qed.

Lemma gen_pair {O A B C : Type} (x : A * B)
      (g : A -> B -> Gen (LowRankTrotterStep.obj K) O C)
      (s : LowRankTrotterStep.obj K) :
  (let (a, b) := x in g a b) s = g (fst x) (snd x) s.
Proof. destruct x. reflexivity. Qed.

Lemma yield_generator_ok (g : Gen (LowRankTrotterStep.obj K)
                                  (Operation K Q) unit)
      (ops : list (Operation K Q)) (r : result unit)
      (s s' : LowRankTrotterStep.obj K) :
  g s = (ops, r, s') ->
  ControlledAsymmetricLowRankTrotterStep.yield_generator g s
  = ([generator ops r], Ok tt, s').
Proof.
  intro Hg. unfold ControlledAsymmetricLowRankTrotterStep.yield_generator.
  rewrite Hg. reflexivity.
Qed.

Lemma controlled_terms_emitted (time : K) (control_qubit : option Q) :
  forall (terms : list (ndarray K * ndarray K)) (v : list Q * ndarray K),
    emitted (fun t v => controlled_term time control_qubit t (fst v) (snd v))
            (fun t v => (rev (fst v), snd t)) terms v
    ++ [bogoliubov_transform
          (fst (fold_left (fun v t => (rev (fst v), snd t)) terms v))
          (snd (fold_left (fun v t => (rev (fst v), snd t)) terms v))]
    = controlled_terms time control_qubit terms (fst v) (snd v).
Proof.
  induction terms as [| term terms IH]; intros [qubits prior].
  - reflexivity.
  - cbn [emitted controlled_terms fold_left fst snd].
    specialize (IH (rev qubits, snd term)). cbn [fst snd] in IH.
    rewrite <- IH, <- app_assoc. reflexivity.
Qed.

(** The same for the controlled step, whatever stands for the control
    qubit. *)
Lemma controlled_trotter_step_yields (n : nat)
      (s : LowRankTrotterStep.obj K) (qubits : list Q) (time : K)
      (control_qubit : option Q) :
  well_formed n s = true ->
  length qubits = n ->
  ControlledAsymmetricLowRankTrotterStep.trotter_step
    qubits time control_qubit s
  = (controlled_step s qubits time control_qubit, Ok tt, s).
Proof.
  intros Hwf Hlen.
  destruct (well_formed_true _ _ Hwf) as (Hrows & Hcols & _).
  pose proof (terms_length _ _ Hwf) as Hterms.
  unfold ControlledAsymmetricLowRankTrotterStep.trotter_step.
  etransitivity.
  - eapply bind_ok; [reflexivity |].
    eapply bind_ok; [reflexivity |].
    eapply bind_ok.
    { apply yield_generator_ok.
      apply for_each_per_qubit with
        (f := fun j qubit =>
                on (Rot11Gate
                      (mul (neg (real_part
                                   (numpy.item (one_body_coefficients s)
                                               j j)))
                           time))
                   [control_qubit; Some qubit])
        (qubits := rev qubits).
      - apply length_rev.
      - intros p x Hnth Hp. unfold bind, gets, lift, yield.
        rewrite getitem2_ok by lia. rewrite (getitem_ok _ _ Hnth).
        reflexivity. }
    eapply bind_ok; [reflexivity |].
    cbv beta. rewrite <- Hterms.
    match goal with
    | |- context [for_fold _ _ ?b] => set (body := b)
    end.
    destruct (@for_fold_terms _ _ _ _ body
                (fun t v => controlled_term time control_qubit t
                                            (fst v) (snd v))
                (fun t v => (rev (fst v), snd t))
                (fun v => length (fst v) = n /\ numpy.ncols (snd v) = n)
                s
                (combine (scaled_density_density_matrices s)
                         (basis_change_matrices s))
                0 (rev qubits, numpy.identity (length qubits)))
      as [Hloop _].
    { cbn. rewrite length_rev. split; assumption. }
    { intros i term [qubits' prior] Hnth [Hq Hp]. cbn [fst snd] in *.
      destruct (term_at _ _ _ Hwf Hnth)
        as (Hc & Hb & Hcr & Hcc & Hbr & Hbc).
      split; [| rewrite length_rev; split; assumption].
      subst body. cbn beta iota. cbn [Nat.add].
      etransitivity.
      - eapply bind_ok; [reflexivity |].
        eapply bind_ok; [apply lift_ok; exact Hc |].
        eapply bind_ok; [reflexivity |].
        eapply bind_ok; [apply lift_ok; exact Hb |].
        eapply bind_ok;
          [apply lift_ok; apply dot_ok; cbn; congruence |].
        eapply bind_ok; [reflexivity |].
        eapply bind_ok; [reflexivity |].
        eapply bind_ok; [| reflexivity].
        apply yield_generator_ok.
        apply for_each_per_qubit with
          (f := fun k qubit =>
                  on (Rot11Gate
                        (mul (neg (numpy.item (fst term) k k)) time))
                     [control_qubit; Some qubit])
          (qubits := rev qubits').
        + rewrite length_rev. congruence.
        + intros p x Hnth' Hlt. unfold bind, lift, yield.
          rewrite getitem2_ok by lia. rewrite (getitem_ok _ _ Hnth').
          reflexivity.
      - reflexivity. }
    eapply bind_ok; [exact Hloop |].
    rewrite gen_pair.
    eapply bind_ok; [reflexivity |].
    eapply bind_ok; reflexivity.
  - unfold controlled_step. cbn [app].
    pose proof (controlled_terms_emitted time control_qubit
                  (combine (scaled_density_density_matrices s)
                           (basis_change_matrices s))
                  (rev qubits, numpy.identity (length qubits))) as Hterms'.
    cbn [fst snd] in Hterms'. rewrite <- Hterms'.
    rewrite <- !app_assoc. reflexivity.
Qed.
End Steps.

(** ** Parity tests *)

Lemma truthy_Z_land (n : Z) : truthy_Z (Z.land n 1) = Z.odd n.
Proof.
  unfold truthy_Z. change 1%Z with (Z.ones 1) at 1.
  rewrite Z.land_ones by lia. change (2 ^ 1)%Z with 2%Z.
  rewrite Zmod_odd. destruct (Z.odd n); reflexivity.
Qed.

Lemma truthy_nat_land (n : nat) : truthy_nat (Nat.land n 1) = Nat.odd n.
Proof.
  unfold truthy_nat. change 1 with (Nat.ones 1) at 1.
  rewrite Nat.land_ones. change (2 ^ 1) with 2.
  rewrite <- Nat.bit0_odd, Nat.bit0_eqb.
  pose proof (Nat.mod_upper_bound n 2 ltac:(lia)) as Hlt.
  destruct (n mod 2) as [| [| m]]; [reflexivity | reflexivity | lia].
Qed.


Unset Implicit Arguments.

Lemma Z_even_not_odd (n : Z) : Z.even n = true -> Z.odd n = false.
Proof. intro He. rewrite <- Z.negb_even, He. reflexivity. Qed.

(** ** The permutation of a step *)

Lemma asymmetric_permutation {K : Type} `{Numeric K} {Q : Type}
      (s : LowRankTrotterStep.obj K) (qubits : list Q)
      (control_qubit : option Q) :
  fst (fst (AsymmetricLowRankTrotterStep.step_qubit_permutation
              qubits control_qubit s))
  = (if Nat.even (length (LowRankTrotterStep.eigenvalues s))
     then rev qubits else qubits).
Proof.
  unfold AsymmetricLowRankTrotterStep.step_qubit_permutation.
  rewrite truthy_nat_land, <- Nat.negb_even.
  destruct (Nat.even _); reflexivity.
Qed.

Lemma controlled_permutation {K : Type} `{Numeric K} {Q : Type}
      (s : LowRankTrotterStep.obj K) (qubits : list Q)
      (control_qubit : option Q) :
  fst (fst (ControlledAsymmetricLowRankTrotterStep.step_qubit_permutation
              qubits control_qubit s))
  = (if Nat.even (length (LowRankTrotterStep.eigenvalues s))
     then rev qubits else qubits).
Proof.
  unfold ControlledAsymmetricLowRankTrotterStep.step_qubit_permutation.
  rewrite truthy_nat_land, <- Nat.negb_even.
  destruct (Nat.even _); reflexivity.
Qed.

(** C2: for every step with J decomposition terms and every sequence of
    qubits, [step_qubit_permutation] returns the ordering unchanged when J
    is odd and reversed when J is even, in the asymmetric and in the
    controlled variant. *)
Theorem step_qubit_permutation_parity {K : Type} `{Numeric K} {Q : Type}
        (s : LowRankTrotterStep.obj K) (qubits : list Q)
        (control_qubit : option Q) :
  fst (fst (AsymmetricLowRankTrotterStep.step_qubit_permutation
              qubits control_qubit s))
  = (if Nat.even (length (LowRankTrotterStep.eigenvalues s))
     then rev qubits else qubits)
  /\ fst (fst (ControlledAsymmetricLowRankTrotterStep.step_qubit_permutation
                 qubits control_qubit s))
     = (if Nat.even (length (LowRankTrotterStep.eigenvalues s))
        then rev qubits else qubits).
Proof.
  split; [apply asymmetric_permutation | apply controlled_permutation].
Qed.

(** C10: the asymmetric [step_qubit_permutation] always returns [None] as
    the control qubit of its pair, whatever control qubit it is given; the
    controlled one returns the control qubit it is given. *)
Theorem step_qubit_permutation_control {K : Type} `{Numeric K} {Q : Type}
        (s : LowRankTrotterStep.obj K) (qubits : list Q)
        (control_qubit : option Q) :
  snd (fst (AsymmetricLowRankTrotterStep.step_qubit_permutation
              qubits control_qubit s)) = None
  /\ snd (fst (ControlledAsymmetricLowRankTrotterStep.step_qubit_permutation
                 qubits control_qubit s)) = control_qubit.
Proof.
  unfold AsymmetricLowRankTrotterStep.step_qubit_permutation,
    ControlledAsymmetricLowRankTrotterStep.step_qubit_permutation.
  destruct (truthy_nat _); split; reflexivity.
Qed.

(** ** The cleanup after the last step *)

(** C3: if [n_steps] is even or [omit_final_swaps] is true, [finish]
    yields nothing at all, in the asymmetric and in the controlled
    variant. *)
Theorem finish_yields_nothing {K : Type} `{Numeric K} {Q : Type}
        (s : LowRankTrotterStep.obj K) (qubits : list Q) (n_steps : Z)
        (control_qubit : option Q) (omit_final_swaps : bool) :
  Z.even n_steps = true \/ omit_final_swaps = true ->
  AsymmetricLowRankTrotterStep.finish
    qubits n_steps control_qubit omit_final_swaps s = ([], Ok tt, s)
  /\ ControlledAsymmetricLowRankTrotterStep.finish
       qubits n_steps control_qubit omit_final_swaps s = ([], Ok tt, s).
Proof.
  intros [Heven | Homit];
    unfold AsymmetricLowRankTrotterStep.finish,
      ControlledAsymmetricLowRankTrotterStep.finish.
  - rewrite truthy_Z_land, (Z_even_not_odd _ Heven).
    destruct omit_final_swaps; split; reflexivity.
  - subst omit_final_swaps. split; reflexivity.
Qed.

(** With J = 2 and two steps nothing is yielded. *)
Lemma finish_yields_nothing_witness :
  (Z.even 2 = true \/ false = true)
  /\ AsymmetricLowRankTrotterStep.finish
       Sample.qubits 2%Z None false (Sample.step 2)
     = ([], Ok tt, Sample.step 2)
  /\ ControlledAsymmetricLowRankTrotterStep.finish
       Sample.qubits 2%Z None false (Sample.step 2)
     = ([], Ok tt, Sample.step 2).
Proof.
  split; [left; reflexivity |].
  apply (finish_yields_nothing (Sample.step 2) Sample.qubits 2%Z None false).
  left. reflexivity.
Defined.

(** C1, as the code has it: after an odd number of steps, and unless the
    final swaps are omitted, [finish] yields one fermionic pass of the swap
    network and then one more pass, not fermionic, if and only if J is
    odd. *)
Theorem finish_odd_steps {K : Type} `{Numeric K} {Q : Type}
        (s : LowRankTrotterStep.obj K) (qubits : list Q) (n_steps : Z)
        (control_qubit : option Q) :
  Z.odd n_steps = true ->
  AsymmetricLowRankTrotterStep.finish qubits n_steps control_qubit false s
  = (swap_network qubits None true
       :: (if Nat.odd (length (LowRankTrotterStep.eigenvalues s))
           then [swap_network qubits None false] else []),
     Ok tt, s).
Proof.
  intro Hodd. unfold AsymmetricLowRankTrotterStep.finish.
  rewrite truthy_Z_land, Hodd. cbn [negb].
  unfold bind, yield, gets. rewrite truthy_nat_land.
  destruct (Nat.odd _); reflexivity.
Qed.

Lemma finish_odd_steps_witness :
  Z.odd 1 = true
  /\ AsymmetricLowRankTrotterStep.finish Sample.qubits 1%Z None false
       (Sample.step 1)
     = ([swap_network Sample.qubits None true;
         swap_network Sample.qubits None false], Ok tt, Sample.step 1).
Proof.
  split; [reflexivity |].
  apply (finish_odd_steps (Sample.step 1) Sample.qubits 1%Z None).
  reflexivity.
Defined.

(** C1 fails as it is stated: with J = 2 and one step the only pass
    [finish] yields is the fermionic one. *)
Lemma finish_two_terms_one_step :
  Nat.even (length (LowRankTrotterStep.eigenvalues (Sample.step 2))) = true
  /\ Z.odd 1 = true
  /\ yielded (AsymmetricLowRankTrotterStep.finish
                Sample.qubits 1%Z None false (Sample.step 2))
     = [swap_network Sample.qubits None true]
  /\ passes true (yielded (AsymmetricLowRankTrotterStep.finish
                             Sample.qubits 1%Z None false (Sample.step 2))) = 1
  /\ passes false (yielded (AsymmetricLowRankTrotterStep.finish
                              Sample.qubits 1%Z None false (Sample.step 2))) = 0
  /\ length (yielded (AsymmetricLowRankTrotterStep.finish
                        Sample.qubits 1%Z None false (Sample.step 2))) <> 2.
Proof.
  repeat split; try reflexivity. cbn. discriminate.
Qed.


(** ** The basis transformations of a step *)

Section BasisChanges.
Context {K : Type} `{Numeric K} {Q : Type}.

Lemma bogoliubov_matrices_app (xs ys : list (op_tree K Q)) :
  bogoliubov_matrices (xs ++ ys)
  = bogoliubov_matrices xs ++ bogoliubov_matrices ys.
Proof.
  induction xs as [| x xs IH]; [reflexivity |].
  destruct x; cbn; rewrite IH; reflexivity.
Qed.

Lemma bogoliubov_matrices_per_qubit (f : nat -> Q -> Operation K Q)
      (qubits : list Q) :
  bogoliubov_matrices (per_qubit (fun p qubit => Op (f p qubit)) qubits) = [].
Proof.
  unfold per_qubit.
  induction (combine (seq 0 (length qubits)) qubits) as [| x xs IH];
    [reflexivity | exact IH].
Qed.

Lemma map_snd_combine {X Y : Type} (xs : list X) :
  forall ys : list Y, length xs = length ys -> map snd (combine xs ys) = ys.
Proof.
  induction xs as [| x xs IH]; intros [| y ys] Hlen;
    try discriminate; [reflexivity |].
  cbn. f_equal. apply IH. cbn in Hlen. lia.
Qed.

Lemma last_cons_default {X : Type} (xs : list X) :
  forall a d : X, last (a :: xs) d = last xs a.
Proof.
  induction xs as [| b xs IH]; intros a d; [reflexivity |].
  change (last (a :: b :: xs) d) with (last (b :: xs) d).
  rewrite (IH b d), (IH b a). reflexivity.
Qed.

Lemma asymmetric_terms_basis_chain (time : K) (n : nat) :
  forall (terms : list (ndarray K * ndarray K)) (qubits : list Q)
         (prior : ndarray K),
    numpy.ncols prior = n ->
    Forall (fun term => numpy.ncols (snd term) = n) terms ->
    map Ok (bogoliubov_matrices (asymmetric_terms time terms qubits prior))
    = basis_chain prior (map snd terms).
Proof.
  induction terms as [| term terms IH]; intros qubits prior Hprior Hall.
  - reflexivity.
  - inversion Hall as [| ? ? Hterm Hrest]; subst.
    cbn [asymmetric_terms map basis_chain]. unfold asymmetric_term.
    cbn [app bogoliubov_matrices]. rewrite bogoliubov_matrices_app.
    rewrite (bogoliubov_matrices_per_qubit
               (fun p qubit =>
                  on (RotZGate (mul (neg (numpy.item (fst term) p p)) time))
                     [Some qubit])).
    cbn [app map]. rewrite (IH _ _ Hterm Hrest).
    rewrite dot_ok by (cbn; congruence). reflexivity.
Qed.


Lemma terms_columns (n : nat) (s : LowRankTrotterStep.obj K) :
  well_formed n s = true ->
  Forall (fun term : ndarray K * ndarray K => numpy.ncols (snd term) = n)
         (combine (LowRankTrotterStep.scaled_density_density_matrices s)
                  (LowRankTrotterStep.basis_change_matrices s)).
Proof.
  intro Hwf. apply Forall_forall. intros term Hin.
  apply In_nth_error in Hin. destruct Hin as [i Hnth].
  destruct (term_at _ _ _ Hwf Hnth) as (_ & _ & _ & _ & _ & Hcols).
  exact Hcols.
Qed.

Lemma controlled_terms_last (time : K) (control_qubit : option Q) :
  forall (terms : list (ndarray K * ndarray K)) (qubits : list Q)
         (prior : ndarray K),
  exists before ordering,
    controlled_terms time control_qubit terms qubits prior
    = before ++ [bogoliubov_transform ordering (last (map snd terms) prior)].
Proof.
  induction terms as [| term terms IH]; intros qubits prior.
  - exists [], qubits. reflexivity.
  - destruct (IH (rev qubits) (snd term)) as (before & ordering & Hrest).
    exists (controlled_term time control_qubit term qubits prior ++ before),
      ordering.
    cbn [controlled_terms map]. rewrite Hrest, last_cons_default.
    rewrite <- app_assoc. reflexivity.
Qed.
End BasisChanges.



(** ** The phase of the controlled step *)

(** C5: the last value the controlled [trotter_step] yields, right after
    the basis transformation that undoes the last basis change, is the
    rotation about Z by [-constant * time] on the control qubit, whatever
    the number of terms.  The step here is well formed and has as many
    qubits as its arrays have rows, so that nothing is raised. *)
Theorem controlled_trotter_step_phase {K : Type} `{Numeric K} {Q : Type}
        (n : nat) (s : LowRankTrotterStep.obj K) (qubits : list Q) (time : K)
        (control_qubit : option Q) :
  well_formed n s = true ->
  length qubits = n ->
  exists before ordering,
    ControlledAsymmetricLowRankTrotterStep.trotter_step
      qubits time control_qubit s
    = (before
         ++ [bogoliubov_transform ordering
               (last (LowRankTrotterStep.basis_change_matrices s)
                     (numpy.identity n));
             Op (on (RotZGate (mul (neg (LowRankTrotterStep.constant s)) time))
                    [control_qubit])],
       Ok tt, s).
Proof.
  intros Hwf Hlen.
  rewrite (controlled_trotter_step_yields s qubits time control_qubit Hwf Hlen).
  destruct (well_formed_true _ _ Hwf) as (_ & _ & Hls & Hlb & _).
  unfold controlled_step.
  destruct (controlled_terms_last time control_qubit
              (combine (LowRankTrotterStep.scaled_density_density_matrices s)
                       (LowRankTrotterStep.basis_change_matrices s))
              (rev qubits) (numpy.identity (length qubits)))
    as (before & ordering & Hterms).
  rewrite Hterms, map_snd_combine, Hlen by congruence.
  eexists (_ :: _ :: before), ordering.
  cbn [app]. rewrite <- app_assoc. reflexivity.
Qed.

Lemma controlled_trotter_step_phase_witness :
  well_formed 2 (Sample.step 2) = true
  /\ length Sample.qubits = 2
  /\ exists before ordering,
       ControlledAsymmetricLowRankTrotterStep.trotter_step
         Sample.qubits (Sample.Zi_of 1) (Some 7) (Sample.step 2)
       = (before
            ++ [bogoliubov_transform ordering
                  (last (LowRankTrotterStep.basis_change_matrices
                           (Sample.step 2))
                        (numpy.identity 2));
                Op (on (RotZGate
                          (mul (neg (LowRankTrotterStep.constant
                                       (Sample.step 2)))
                               (Sample.Zi_of 1)))
                       [Some 7])],
          Ok tt, Sample.step 2).
Proof.
  split; [reflexivity | split; [reflexivity |]].
  apply (controlled_trotter_step_phase 2 (Sample.step 2) Sample.qubits
           (Sample.Zi_of 1) (Some 7)); reflexivity.
Defined.

(** ** The controlled step without a control qubit *)

(** C9, as the code has it: the controlled [trotter_step] makes no check
    of its control qubit.  Called without one, on a well formed step with
    as many qubits as its arrays have rows, it raises nothing and yields
    the whole sequence of a step, [None] standing where the control qubit
    would, down to the last rotation about Z. *)
Theorem controlled_trotter_step_without_control
        {K : Type} `{Numeric K} {Q : Type}
        (n : nat) (s : LowRankTrotterStep.obj K) (qubits : list Q)
        (time : K) :
  well_formed n s = true ->
  length qubits = n ->
  ControlledAsymmetricLowRankTrotterStep.trotter_step qubits time None s
  = (controlled_step s qubits time None, Ok tt, s)
  /\ exists before,
       controlled_step s qubits time None
       = before
           ++ [Op (on (RotZGate
                         (mul (neg (LowRankTrotterStep.constant s)) time))
                      [None])].
Proof.
  intros Hwf Hlen. split.
  - exact (controlled_trotter_step_yields s qubits time None Hwf Hlen).
  - unfold controlled_step. eexists (_ :: _ :: _). reflexivity.
Qed.

Lemma controlled_trotter_step_without_control_witness :
  well_formed 2 (Sample.step 1) = true
  /\ length Sample.qubits = 2
  /\ ControlledAsymmetricLowRankTrotterStep.trotter_step
       Sample.qubits (Sample.Zi_of 1) None (Sample.step 1)
     = (controlled_step (Sample.step 1) Sample.qubits (Sample.Zi_of 1) None,
        Ok tt, Sample.step 1).
Proof.
  split; [reflexivity | split; [reflexivity |]].
  apply (controlled_trotter_step_without_control 2 (Sample.step 1)
           Sample.qubits (Sample.Zi_of 1)); reflexivity.
Defined.

(** C9 fails as it is stated: on two qubits and a step of one term, the
    call without a control qubit raises nothing and yields seven values,
    the last of them a rotation applied to [None]. *)
Lemma controlled_step_without_control_qubit :
  returned (ControlledAsymmetricLowRankTrotterStep.trotter_step
              Sample.qubits (Sample.Zi_of 1) None (Sample.step 1)) = Ok tt
  /\ length (yielded (ControlledAsymmetricLowRankTrotterStep.trotter_step
                        Sample.qubits (Sample.Zi_of 1) None (Sample.step 1)))
     = 7
  /\ last (yielded (ControlledAsymmetricLowRankTrotterStep.trotter_step
                      Sample.qubits (Sample.Zi_of 1) None (Sample.step 1)))
          (generator [] (Ok tt))
     = Op (on (RotZGate (Sample.Zi_of (-3))) [None]).
Proof.
  repeat split; reflexivity.
Qed.

(** ** The step on two qubits with one term *)



(** ** The methods leave the step as it is *)

Lemma read_only_yield_generator {K : Type} `{Numeric K} {Q : Type}
      (g : Gen (LowRankTrotterStep.obj K) (Operation K Q) unit) :
  read_only g ->
  read_only (ControlledAsymmetricLowRankTrotterStep.yield_generator g).
Proof.
  intros Hg s. specialize (Hg s).
  unfold ControlledAsymmetricLowRankTrotterStep.yield_generator.
  destruct (g s) as [[ops r] s']. exact Hg.
Qed.

Ltac read_only_step :=
  first
    [ apply read_only_ret
    | apply read_only_yield
    | apply read_only_gets
    | apply read_only_lift
    | apply read_only_bind; [| intro]
    | apply read_only_for_each; intro
    | apply read_only_for_fold; intros
    | apply read_only_yield_generator
    | match goal with
      | |- read_only (let (_, _) := ?x in _) => destruct x
      | |- read_only (if ?c then _ else _) => destruct c
      end ].

Section ReadOnly.
Context {K : Type} `{Numeric K} {Q : Type}.

Lemma asymmetric_trotter_step_read_only (qubits : list Q) (time : K)
      (control_qubit : option Q) :
  read_only (AsymmetricLowRankTrotterStep.trotter_step
               qubits time control_qubit).
Proof.
  unfold AsymmetricLowRankTrotterStep.trotter_step. repeat read_only_step.
Qed.

Lemma controlled_trotter_step_read_only (qubits : list Q) (time : K)
      (control_qubit : option Q) :
  read_only (ControlledAsymmetricLowRankTrotterStep.trotter_step
               qubits time control_qubit).
Proof.
  unfold ControlledAsymmetricLowRankTrotterStep.trotter_step.
  repeat read_only_step.
Qed.

Lemma asymmetric_finish_read_only (qubits : list Q) (n_steps : Z)
      (control_qubit : option Q) (omit_final_swaps : bool) :
  read_only (AsymmetricLowRankTrotterStep.finish (K := K)
               qubits n_steps control_qubit omit_final_swaps).
Proof.
  unfold AsymmetricLowRankTrotterStep.finish. repeat read_only_step.
Qed.

Lemma controlled_finish_read_only (qubits : list Q) (n_steps : Z)
      (control_qubit : option Q) (omit_final_swaps : bool) :
  read_only (ControlledAsymmetricLowRankTrotterStep.finish (K := K)
               qubits n_steps control_qubit omit_final_swaps).
Proof.
  unfold ControlledAsymmetricLowRankTrotterStep.finish.
  repeat read_only_step.
Qed.

Lemma step_qubit_permutation_read_only (qubits : list Q)
      (control_qubit : option Q) (s : LowRankTrotterStep.obj K) :
  snd (AsymmetricLowRankTrotterStep.step_qubit_permutation
         qubits control_qubit s) = s
  /\ snd (ControlledAsymmetricLowRankTrotterStep.step_qubit_permutation
            qubits control_qubit s) = s.
Proof.
  unfold AsymmetricLowRankTrotterStep.step_qubit_permutation,
    ControlledAsymmetricLowRankTrotterStep.step_qubit_permutation.
  destruct (truthy_nat _); split; reflexivity.
Qed.
End ReadOnly.

(** ** The constructor *)

Section Constructor.
Context {K : Type} `{Numeric K} {Aux : Type}.
Variable low_rank_two_body_decomposition :
  ndarray4 K -> option K -> option Z -> bool ->
  result (list K * list (ndarray K) * ndarray K * Aux).
Variable prepare_one_body_squared_evolution :
  ndarray K -> result (ndarray K * ndarray K).

Lemma prepare_terms_lengths (eigenvalues : list K)
      (one_body_squares : list (ndarray K)) :
  forall (js : list nat) (scaled basis scaled' basis' : list (ndarray K)),
    LowRankTrotterStep.prepare_terms prepare_one_body_squared_evolution
      eigenvalues one_body_squares js scaled basis = Ok (scaled', basis') ->
    length scaled' = length scaled + length js
    /\ length basis' = length basis + length js.
Proof.
  induction js as [| j js IH]; intros scaled basis scaled' basis' Hrun;
    cbn [LowRankTrotterStep.prepare_terms] in Hrun.
  - inversion Hrun; subst. cbn. lia.
  - destruct (getitem one_body_squares j) as [square |];
      cbn [result_bind] in Hrun; [| discriminate].
    destruct (prepare_one_body_squared_evolution square) as [[density b] |];
      cbn [result_bind] in Hrun; [| discriminate].
    destruct (getitem eigenvalues j) as [eigenvalue |];
      cbn [result_bind] in Hrun; [| discriminate].
    apply IH in Hrun. rewrite !length_app in Hrun. cbn in *. lia.
Qed.

(** A constructed step has one scaled matrix and one basis change matrix
    per eigenvalue. *)
Lemma constructed_lengths (hamiltonian : Hamiltonian K)
      (truncation_threshold : option K) (final_rank : option Z)
      (spin_basis : bool) (s : LowRankTrotterStep.obj K) :
  LowRankTrotterStep.__init__ low_rank_two_body_decomposition
    prepare_one_body_squared_evolution hamiltonian truncation_threshold
    final_rank spin_basis = Ok s ->
  length (LowRankTrotterStep.scaled_density_density_matrices s)
  = length (LowRankTrotterStep.eigenvalues s)
  /\ length (LowRankTrotterStep.basis_change_matrices s)
     = length (LowRankTrotterStep.eigenvalues s).
Proof.
  unfold LowRankTrotterStep.__init__. intro Hinit.
  destruct (Hamiltonian_two_body_tensor hamiltonian) as [tensor |];
    cbn [result_bind] in Hinit; [| discriminate].
  destruct (low_rank_two_body_decomposition _ _ _ _)
    as [[[[eigenvalues squares] correction] aux] |];
    cbn [result_bind] in Hinit; [| discriminate].
  destruct (Hamiltonian_one_body_tensor hamiltonian) as [raw |];
    cbn [result_bind] in Hinit; [| discriminate].
  destruct (numpy.plus raw correction) as [coefficients |];
    cbn [result_bind] in Hinit; [| discriminate].
  destruct (Hamiltonian_constant hamiltonian) as [constant |];
    cbn [result_bind] in Hinit; [| discriminate].
  destruct (LowRankTrotterStep.prepare_terms _ _ _ _ _ _)
    as [[scaled basis] |] eqn:Hterms;
    cbn [result_bind] in Hinit; [| discriminate].
  inversion Hinit; subst s. cbn.
  apply prepare_terms_lengths in Hterms. rewrite length_seq in Hterms.
  exact Hterms.
Qed.


End Constructor.

(** C6: the one-body coefficients a constructed step stores are the one-body
    tensor of the Hamiltonian plus the correction the decomposition
    returned, entry by entry; [trotter_step], [step_qubit_permutation] and
    [finish], of either variant, leave them as they are. *)
Theorem one_body_coefficients_constructed
        {K : Type} `{Numeric K} {Aux Q : Type}
        (low_rank_two_body_decomposition :
           ndarray4 K -> option K -> option Z -> bool ->
           result (list K * list (ndarray K) * ndarray K * Aux))
        (prepare_one_body_squared_evolution :
           ndarray K -> result (ndarray K * ndarray K))
        (hamiltonian : Hamiltonian K) (truncation_threshold : option K)
        (final_rank : option Z) (spin_basis : bool)
        (s : LowRankTrotterStep.obj K) :
  LowRankTrotterStep.__init__ low_rank_two_body_decomposition
    prepare_one_body_squared_evolution hamiltonian truncation_threshold
    final_rank spin_basis = Ok s ->
  (exists tensor eigenvalues squares correction aux raw,
      Hamiltonian_two_body_tensor hamiltonian = Ok tensor
      /\ low_rank_two_body_decomposition
           tensor truncation_threshold final_rank spin_basis
         = Ok (eigenvalues, squares, correction, aux)
      /\ Hamiltonian_one_body_tensor hamiltonian = Ok raw
      /\ numpy.plus raw correction
         = Ok (LowRankTrotterStep.one_body_coefficients s)
      /\ forall p q,
           numpy.item (LowRankTrotterStep.one_body_coefficients s) p q
           = add (numpy.item raw p q) (numpy.item correction p q))
  /\ forall (qubits : list Q) (time : K) (n_steps : Z)
            (control_qubit : option Q) (omit_final_swaps : bool),
       LowRankTrotterStep.one_body_coefficients
         (object_after (AsymmetricLowRankTrotterStep.trotter_step
                          qubits time control_qubit s))
       = LowRankTrotterStep.one_body_coefficients s
       /\ LowRankTrotterStep.one_body_coefficients
            (object_after (ControlledAsymmetricLowRankTrotterStep.trotter_step
                             qubits time control_qubit s))
          = LowRankTrotterStep.one_body_coefficients s
       /\ LowRankTrotterStep.one_body_coefficients
            (snd (AsymmetricLowRankTrotterStep.step_qubit_permutation
                    qubits control_qubit s))
          = LowRankTrotterStep.one_body_coefficients s
       /\ LowRankTrotterStep.one_body_coefficients
            (snd (ControlledAsymmetricLowRankTrotterStep.step_qubit_permutation
                    qubits control_qubit s))
          = LowRankTrotterStep.one_body_coefficients s
       /\ LowRankTrotterStep.one_body_coefficients
            (object_after (AsymmetricLowRankTrotterStep.finish
                             qubits n_steps control_qubit omit_final_swaps s))
          = LowRankTrotterStep.one_body_coefficients s
       /\ LowRankTrotterStep.one_body_coefficients
            (object_after (ControlledAsymmetricLowRankTrotterStep.finish
                             qubits n_steps control_qubit omit_final_swaps s))
          = LowRankTrotterStep.one_body_coefficients s.
Proof.
  intro Hinit. split.
  - unfold LowRankTrotterStep.__init__ in Hinit.
    destruct (Hamiltonian_two_body_tensor hamiltonian) as [tensor |]
      eqn:Htensor;
      cbn [result_bind] in Hinit; [| discriminate].
    destruct (low_rank_two_body_decomposition _ _ _ _)
      as [[[[eigenvalues squares] correction] aux] |] eqn:Hdecomposition;
      cbn [result_bind] in Hinit; [| discriminate].
    destruct (Hamiltonian_one_body_tensor hamiltonian) as [raw |] eqn:Hraw;
      cbn [result_bind] in Hinit; [| discriminate].
    destruct (numpy.plus raw correction) as [coefficients |] eqn:Hplus;
      cbn [result_bind] in Hinit; [| discriminate].
    destruct (Hamiltonian_constant hamiltonian) as [constant |];
      cbn [result_bind] in Hinit; [| discriminate].
    destruct (LowRankTrotterStep.prepare_terms _ _ _ _ _ _)
      as [[scaled basis] |];
      cbn [result_bind] in Hinit; [| discriminate].
    inversion Hinit; subst s. cbn [LowRankTrotterStep.one_body_coefficients].
    exists tensor, eigenvalues, squares, correction, aux, raw.
    split; [reflexivity |]. split; [exact Hdecomposition |].
    split; [reflexivity |]. split; [exact Hplus |].
    intros p q. unfold numpy.plus in Hplus.
    destruct (_ && _); [| discriminate].
    inversion Hplus; subst coefficients. reflexivity.
  - intros qubits time n_steps control_qubit omit_final_swaps.
    rewrite (asymmetric_trotter_step_read_only qubits time control_qubit s).
    rewrite (controlled_trotter_step_read_only qubits time control_qubit s).
    rewrite (asymmetric_finish_read_only
               qubits n_steps control_qubit omit_final_swaps s).
    rewrite (controlled_finish_read_only
               qubits n_steps control_qubit omit_final_swaps s).
    destruct (step_qubit_permutation_read_only qubits control_qubit s)
      as [Ha Hc].
    rewrite Ha, Hc. repeat split; reflexivity.
Qed.

Lemma one_body_coefficients_constructed_witness :
  LowRankTrotterStep.__init__ Sample.decomposition Sample.prepare
    Sample.hamiltonian None (Some 2%Z) true = Ok (Sample.step 2)
  /\ LowRankTrotterStep.one_body_coefficients
       (object_after (AsymmetricLowRankTrotterStep.trotter_step
                        Sample.qubits (Sample.Zi_of 1) None (Sample.step 2)))
     = LowRankTrotterStep.one_body_coefficients (Sample.step 2).
Proof.
  split; [reflexivity |].
  apply (proj2 (one_body_coefficients_constructed (Q := nat)
                  Sample.decomposition Sample.prepare Sample.hamiltonian
                  None (Some 2%Z) true (Sample.step 2) eq_refl)
               Sample.qubits (Sample.Zi_of 1) 1%Z None false).
Defined.

(** ** The factory *)

(** C8, as the code has it: the factory methods make no check of the type
    of the Hamiltonian.  For every Hamiltonian they run the constructor of
    the step and return the step it builds, or raise what it raises; they
    never return the value that stands for "not applicable". *)
Theorem factory_runs_constructor {K : Type} `{Numeric K} {Aux : Type}
        (low_rank_two_body_decomposition :
           ndarray4 K -> option K -> option Z -> bool ->
           result (list K * list (ndarray K) * ndarray K * Aux))
        (prepare_one_body_squared_evolution :
           ndarray K -> result (ndarray K * ndarray K))
        (self : LowRankTrotterAlgorithm.obj K) (hamiltonian : Hamiltonian K) :
  LowRankTrotterAlgorithm.asymmetric low_rank_two_body_decomposition
    prepare_one_body_squared_evolution self hamiltonian
  = match LowRankTrotterStep.__init__ low_rank_two_body_decomposition
            prepare_one_body_squared_evolution hamiltonian
            (LowRankTrotterAlgorithm.truncation_threshold self)
            (LowRankTrotterAlgorithm.final_rank self)
            (LowRankTrotterAlgorithm.spin_basis self)
    with
    | Ok step => Ok (Some (LowRankTrotterAlgorithm.Asymmetric step))
    | Raise e => Raise e
    end
  /\ LowRankTrotterAlgorithm.controlled_asymmetric
       low_rank_two_body_decomposition prepare_one_body_squared_evolution
       self hamiltonian
     = match LowRankTrotterStep.__init__ low_rank_two_body_decomposition
               prepare_one_body_squared_evolution hamiltonian
               (LowRankTrotterAlgorithm.truncation_threshold self)
               (LowRankTrotterAlgorithm.final_rank self)
               (LowRankTrotterAlgorithm.spin_basis self)
       with
       | Ok step => Ok (Some (LowRankTrotterAlgorithm.ControlledAsymmetric step))
       | Raise e => Raise e
       end
  /\ LowRankTrotterAlgorithm.asymmetric low_rank_two_body_decomposition
       prepare_one_body_squared_evolution self hamiltonian <> Ok None
  /\ LowRankTrotterAlgorithm.controlled_asymmetric
       low_rank_two_body_decomposition prepare_one_body_squared_evolution
       self hamiltonian <> Ok None.
Proof.
  unfold LowRankTrotterAlgorithm.asymmetric,
    LowRankTrotterAlgorithm.controlled_asymmetric.
  destruct (LowRankTrotterStep.__init__ _ _ _ _ _ _) as [step | e];
    cbn [result_bind]; repeat split; discriminate.
Qed.

(** A Hamiltonian without the two-body tensor makes both factory methods
    raise the attribute error. *)
Lemma factory_attribute_error {K : Type} `{Numeric K} {Aux : Type}
      (low_rank_two_body_decomposition :
         ndarray4 K -> option K -> option Z -> bool ->
         result (list K * list (ndarray K) * ndarray K * Aux))
      (prepare_one_body_squared_evolution :
         ndarray K -> result (ndarray K * ndarray K))
      (self : LowRankTrotterAlgorithm.obj K)
      (constant : option K) (one_body_tensor : option (ndarray K)) :
  LowRankTrotterAlgorithm.asymmetric low_rank_two_body_decomposition
    prepare_one_body_squared_evolution self
    (OtherHamiltonian constant one_body_tensor None) = Raise AttributeError
  /\ LowRankTrotterAlgorithm.controlled_asymmetric
       low_rank_two_body_decomposition prepare_one_body_squared_evolution self
       (OtherHamiltonian constant one_body_tensor None) = Raise AttributeError.
Proof. split; reflexivity. Qed.

(** C8 fails as it is stated: for a Hamiltonian of a type that is not
    supported, both factory methods raise, and return no "not applicable"
    value. *)
Lemma factory_raises_on_unsupported_hamiltonian :
  existsb (HamiltonianType_eqb (type_of Sample.other_hamiltonian))
          LowRankTrotterAlgorithm.supported_types = false
  /\ LowRankTrotterAlgorithm.asymmetric Sample.decomposition Sample.prepare
       (Sample.algorithm 1) Sample.other_hamiltonian = Raise AttributeError
  /\ LowRankTrotterAlgorithm.controlled_asymmetric
       Sample.decomposition Sample.prepare
       (Sample.algorithm 1) Sample.other_hamiltonian = Raise AttributeError
  /\ LowRankTrotterAlgorithm.asymmetric Sample.decomposition Sample.prepare
       (Sample.algorithm 1) Sample.other_hamiltonian <> Ok None
  /\ LowRankTrotterAlgorithm.controlled_asymmetric
       Sample.decomposition Sample.prepare
       (Sample.algorithm 1) Sample.other_hamiltonian <> Ok None.
Proof.
  repeat split; try reflexivity; cbn; discriminate.
Qed.

(** ** The ordering of the qubits

    The design behind [finish]: with each pass of a swap network reversing
    the ordering, a step reverses it once for the one-body terms and once
    per decomposition term, and the passes of [finish] bring it back. *)

Lemma even_of_nat (n : nat) : Z.even (Z.of_nat n) = Nat.even n.
Proof.
  induction n as [| n IH]; [reflexivity |].
  rewrite Nat2Z.inj_succ, Z.even_succ, Nat.even_succ.
  rewrite <- Z.negb_even, <- Nat.negb_even, IH. reflexivity.
Qed.

Lemma odd_of_nat (n : nat) : Z.odd (Z.of_nat n) = Nat.odd n.
Proof.
  rewrite <- Z.negb_even, <- Nat.negb_even, even_of_nat. reflexivity.
Qed.

Section Ordering.
Context {K : Type} `{Numeric K} {Q : Type}.

Lemma ordering_after_app (xs ys : list (op_tree K Q)) :
  forall ordering : list Q,
    ordering_after (xs ++ ys) ordering
    = ordering_after ys (ordering_after xs ordering).
Proof.
  induction xs as [| x xs IH]; intro ordering; [reflexivity |].
  destruct x; cbn; apply IH.
Qed.

Lemma ordering_after_per_qubit (f : nat -> Q -> Operation K Q)
      (qubits ordering : list Q) :
  ordering_after (per_qubit (fun p qubit => Op (f p qubit)) qubits) ordering
  = ordering.
Proof.
  unfold per_qubit.
  induction (combine (seq 0 (length qubits)) qubits) as [| x xs IH];
    [reflexivity | exact IH].
Qed.

Lemma ordering_after_asymmetric_terms (time : K) :
  forall (terms : list (ndarray K * ndarray K)) (qubits : list Q)
         (prior : ndarray K) (ordering : list Q),
    ordering_after (asymmetric_terms time terms qubits prior) ordering
    = (if Nat.even (length terms) then ordering else rev ordering).
Proof.
  induction terms as [| term terms IH]; intros qubits prior ordering.
  - reflexivity.
  - cbn [asymmetric_terms]. unfold asymmetric_term.
    cbn [app ordering_after]. rewrite ordering_after_app.
    rewrite (ordering_after_per_qubit
               (fun p qubit =>
                  on (RotZGate (mul (neg (numpy.item (fst term) p p)) time))
                     [Some qubit])).
    rewrite IH. cbn [length]. rewrite Nat.even_succ, <- Nat.negb_even.
    destruct (Nat.even (length terms)); cbn [negb];
      [reflexivity | apply rev_involutive].
Qed.

(** What a step yields reorders the qubits the way
    [step_qubit_permutation] reports. *)
Lemma trotter_step_ordering (n : nat) (s : LowRankTrotterStep.obj K)
      (qubits ordering : list Q) (time : K) (control_qubit : option Q) :
  well_formed n s = true ->
  length qubits = n ->
  ordering_after
    (yielded (AsymmetricLowRankTrotterStep.trotter_step
                qubits time control_qubit s)) ordering
  = fst (fst (AsymmetricLowRankTrotterStep.step_qubit_permutation
                ordering control_qubit s)).
Proof.
  intros Hwf Hlen.
  rewrite (asymmetric_trotter_step_yields s qubits time control_qubit Hwf Hlen).
  cbn [yielded fst]. unfold asymmetric_step. cbn [ordering_after].
  rewrite ordering_after_app.
  rewrite (ordering_after_per_qubit
             (fun p qubit =>
                on (RotZGate
                      (mul (neg (real_part
                                   (numpy.item
                                      (LowRankTrotterStep.one_body_coefficients s)
                                      p p)))
                           time))
                   [Some qubit])).
  rewrite ordering_after_asymmetric_terms, (terms_length _ _ Hwf).
  rewrite asymmetric_permutation.
  destruct (Nat.even _); [reflexivity | apply rev_involutive].
Qed.

Lemma ordering_after_steps_parity (s : LowRankTrotterStep.obj K) :
  forall (n : nat) (ordering : list Q),
    ordering_after_steps s n ordering
    = (if Nat.even (length (LowRankTrotterStep.eigenvalues s)) && Nat.odd n
       then rev ordering else ordering).
Proof.
  induction n as [| n IH]; intro ordering; cbn [ordering_after_steps].
  - rewrite andb_false_r. reflexivity.
  - rewrite IH.
    rewrite asymmetric_permutation, Nat.odd_succ, <- (Nat.negb_odd n).
    destruct (Nat.even (length _)), (Nat.odd n); cbn;
      try reflexivity; apply rev_involutive.
Qed.

(** After any number of steps, the passes [finish] yields leave the
    qubits in the ordering before the first step. *)
Lemma finish_restores_ordering (s : LowRankTrotterStep.obj K)
      (qubits ordering : list Q) (n_steps : nat) (control_qubit : option Q) :
  ordering_after
    (yielded (AsymmetricLowRankTrotterStep.finish
                qubits (Z.of_nat n_steps) control_qubit false s))
    (ordering_after_steps s n_steps ordering)
  = ordering.
Proof.
  rewrite ordering_after_steps_parity.
  unfold AsymmetricLowRankTrotterStep.finish. cbn [negb].
  rewrite truthy_Z_land.
  replace (Z.odd (Z.of_nat n_steps)) with (Nat.odd n_steps).
  - destruct (Nat.odd n_steps).
    + unfold bind, yield, gets. rewrite truthy_nat_land, <- Nat.negb_even.
      destruct (Nat.even (length _)); cbn; rewrite ?rev_involutive;
        reflexivity.
    + rewrite andb_false_r. reflexivity.
  - symmetry. apply odd_of_nat.
Qed.
End Ordering.

(** ** Whenever the controlled step completes *)

Lemma bind_returns {S O A B : Type} (m : Gen S O A) (k : A -> Gen S O B)
      (s s' : S) (out : list O) (b : B) :
  bind m k s = (out, Ok b, s') ->
  exists o1 a s1 o2,
    m s = (o1, Ok a, s1) /\ k a s1 = (o2, Ok b, s') /\ out = o1 ++ o2.
Proof.
  unfold bind. destruct (m s) as [[o1 [a | e]] s1]; [| discriminate].
  destruct (k a s1) as [[o2 r] s2] eqn:Hk. intro Heq.
  inversion Heq; subst. exists o1, a, s1, o2. repeat split. exact Hk.
Qed.

Lemma read_only_run {S O A : Type} (m : Gen S O A) (s s' : S)
      (out : list O) (r : result A) :
  read_only m -> m s = (out, r, s') -> s' = s.
Proof.
  intros Hm Hrun. specialize (Hm s). rewrite Hrun in Hm. exact Hm.
Qed.

(** Without any assumption on the step: if the controlled [trotter_step]
    runs to its end, the last two values it yielded are a basis
    transformation and the rotation about Z by [-constant * time] on the
    control qubit. *)
Lemma controlled_trotter_step_ends {K : Type} `{Numeric K} {Q : Type}
      (s s' : LowRankTrotterStep.obj K) (qubits : list Q) (time : K)
      (control_qubit : option Q) (items : list (op_tree K Q)) :
  ControlledAsymmetricLowRankTrotterStep.trotter_step
    qubits time control_qubit s = (items, Ok tt, s') ->
  exists before ordering matrix,
    items
    = before
        ++ [bogoliubov_transform ordering matrix;
            Op (on (RotZGate (mul (neg (LowRankTrotterStep.constant s)) time))
                   [control_qubit])].
Proof.
  unfold ControlledAsymmetricLowRankTrotterStep.trotter_step. intro Hrun.
  apply bind_returns in Hrun.
  destruct Hrun as (o1 & a1 & s1 & r1 & Hm1 & Hrun & ->).
  apply read_only_run in Hm1; [subst s1 | repeat read_only_step].
  apply bind_returns in Hrun.
  destruct Hrun as (o2 & a2 & s2 & r2 & Hm2 & Hrun & ->).
  apply read_only_run in Hm2; [subst s2 | repeat read_only_step].
  apply bind_returns in Hrun.
  destruct Hrun as (o3 & a3 & s3 & r3 & Hm3 & Hrun & ->).
  apply read_only_run in Hm3; [subst s3 | repeat read_only_step].
  apply bind_returns in Hrun.
  destruct Hrun as (o4 & a4 & s4 & r4 & Hm4 & Hrun & ->).
  apply read_only_run in Hm4; [subst s4 | repeat read_only_step].
  apply bind_returns in Hrun.
  destruct Hrun as (o5 & [ordering matrix] & s5 & r5 & Hm5 & Hrun & ->).
  apply read_only_run in Hm5; [subst s5 | repeat read_only_step].
  unfold bind, yield, gets in Hrun. cbn in Hrun. inversion Hrun; subst.
  exists (o1 ++ o2 ++ o3 ++ o4 ++ o5), ordering, matrix.
  rewrite <- !app_assoc. reflexivity.
Qed.

(** * Further properties *)

(** ** Angle conversion *)

(** X1: whenever two or more of [half_turns], [rads], [degs] and
    [duration] are given, [chosen_angle_to_half_turns] raises the value
    error, whatever the values and whatever the routine of cirq would do. *)
Theorem redundant_angle_raises {K : Type} `{Numeric K} {Symbol : Type}
        (divide : K -> K -> K) (pi : K)
        (cirq_chosen_angle_to_half_turns :
           option (angle.half_turns_value K Symbol) -> option K -> option K ->
           K -> result (angle.half_turns_value K Symbol))
        (half_turns : option (angle.half_turns_value K Symbol))
        (rads degs duration : option K) (default : K) :
  2 <= angle.specified half_turns rads degs duration ->
  angle.chosen_angle_to_half_turns divide pi cirq_chosen_angle_to_half_turns
    half_turns rads degs duration default = Raise ValueError.
Proof.
  intro Hmany. unfold angle.chosen_angle_to_half_turns.
  apply Nat.ltb_lt in Hmany. rewrite Hmany. reflexivity.
Qed.

Lemma redundant_angle_raises_witness :
  2 <= angle.specified (Symbol := nat)
         (Some (angle.number (Sample.Zi_of 0))) (Some (Sample.Zi_of 0))
         None None
  /\ angle.chosen_angle_to_half_turns (Symbol := nat)
       (fun a _ => a) (Sample.Zi_of 3) (fun _ _ _ d => Ok (angle.number d))
       (Some (angle.number (Sample.Zi_of 0))) (Some (Sample.Zi_of 0))
       None None (Sample.Zi_of 1)
     = Raise ValueError.
Proof.
  split; [cbn; lia |].
  apply (redundant_angle_raises (Symbol := nat)
           (fun a _ => a) (Sample.Zi_of 3) (fun _ _ _ d => Ok (angle.number d))
           (Some (angle.number (Sample.Zi_of 0))) (Some (Sample.Zi_of 0))
           None None (Sample.Zi_of 1)).
  cbn. lia.
Defined.

(** X2: when a duration is given, the result does not depend on the
    routine of cirq nor on the default: it is the value error if any of
    the other three angles is given too, and [2 * duration / pi]
    otherwise. *)
Theorem duration_given {K : Type} `{Numeric K} {Symbol : Type}
        (divide : K -> K -> K) (pi : K)
        (cirq_chosen_angle_to_half_turns :
           option (angle.half_turns_value K Symbol) -> option K -> option K ->
           K -> result (angle.half_turns_value K Symbol))
        (half_turns : option (angle.half_turns_value K Symbol))
        (rads degs : option K) (duration default : K) :
  angle.chosen_angle_to_half_turns divide pi cirq_chosen_angle_to_half_turns
    half_turns rads degs (Some duration) default
  = (if angle.is_not_None half_turns || angle.is_not_None rads
        || angle.is_not_None degs
     then Raise ValueError
     else Ok (angle.number (divide (mul (of_int 2) duration) pi))).
Proof.
  unfold angle.chosen_angle_to_half_turns, angle.specified.
  destruct half_turns, rads, degs; reflexivity.
Qed.

(** X3: without a duration and with at most one of the other three angles
    given, the result is what the routine of cirq returns or raises for
    the same [half_turns], [rads], [degs] and default. *)
Theorem angle_left_to_cirq {K : Type} `{Numeric K} {Symbol : Type}
        (divide : K -> K -> K) (pi : K)
        (cirq_chosen_angle_to_half_turns :
           option (angle.half_turns_value K Symbol) -> option K -> option K ->
           K -> result (angle.half_turns_value K Symbol))
        (half_turns : option (angle.half_turns_value K Symbol))
        (rads degs : option K) (default : K) :
  angle.specified half_turns rads degs None <= 1 ->
  angle.chosen_angle_to_half_turns divide pi cirq_chosen_angle_to_half_turns
    half_turns rads degs None default
  = cirq_chosen_angle_to_half_turns half_turns rads degs default.
Proof.
  intro Hfew. unfold angle.chosen_angle_to_half_turns.
  apply Nat.ltb_ge in Hfew. rewrite Hfew. reflexivity.
Qed.

Lemma angle_left_to_cirq_witness :
  angle.specified (Symbol := nat) None (Some (Sample.Zi_of 5)) None None <= 1
  /\ angle.chosen_angle_to_half_turns (Symbol := nat)
       (fun a _ => a) (Sample.Zi_of 3)
       (fun _ rads _ d =>
          match rads with
          | Some r => Ok (angle.number r)
          | None => Ok (angle.number d)
          end)
       None (Some (Sample.Zi_of 5)) None None (Sample.Zi_of 1)
     = Ok (angle.number (Sample.Zi_of 5)).
Proof.
  split; [cbn; lia |].
  apply (angle_left_to_cirq (Symbol := nat)
           (fun a _ => a) (Sample.Zi_of 3)
           (fun _ rads _ d =>
              match rads with
              | Some r => Ok (angle.number r)
              | None => Ok (angle.number d)
              end)
           None (Some (Sample.Zi_of 5)) None (Sample.Zi_of 1)).
  cbn. lia.
Defined.

(** ** More on the constructor *)

Section ConstructorFacts.
Context {K : Type} `{Numeric K} {Aux : Type}.
Variable low_rank_two_body_decomposition :
  ndarray4 K -> option K -> option Z -> bool ->
  result (list K * list (ndarray K) * ndarray K * Aux).
Variable prepare_one_body_squared_evolution :
  ndarray K -> result (ndarray K * ndarray K).

(** Everything a successful construction went through. *)
Lemma constructed_inversion (hamiltonian : Hamiltonian K)
      (truncation_threshold : option K) (final_rank : option Z)
      (spin_basis : bool) (s : LowRankTrotterStep.obj K) :
  LowRankTrotterStep.__init__ low_rank_two_body_decomposition
    prepare_one_body_squared_evolution hamiltonian truncation_threshold
    final_rank spin_basis = Ok s ->
  exists tensor eigenvalues squares correction aux raw coefficients constant
         scaled basis,
    Hamiltonian_two_body_tensor hamiltonian = Ok tensor
    /\ low_rank_two_body_decomposition
         tensor truncation_threshold final_rank spin_basis
       = Ok (eigenvalues, squares, correction, aux)
    /\ Hamiltonian_one_body_tensor hamiltonian = Ok raw
    /\ numpy.plus raw correction = Ok coefficients
    /\ Hamiltonian_constant hamiltonian = Ok constant
    /\ LowRankTrotterStep.prepare_terms prepare_one_body_squared_evolution
         eigenvalues squares (seq 0 (length eigenvalues)) [] []
       = Ok (scaled, basis)
    /\ s = {| LowRankTrotterStep.truncation_threshold := truncation_threshold;
              LowRankTrotterStep.final_rank := final_rank;
              LowRankTrotterStep.eigenvalues := eigenvalues;
              LowRankTrotterStep.one_body_squares := squares;
              LowRankTrotterStep.one_body_coefficients := coefficients;
              LowRankTrotterStep.constant := constant;
              LowRankTrotterStep.scaled_density_density_matrices := scaled;
              LowRankTrotterStep.basis_change_matrices := basis;
              LowRankTrotterStep.hamiltonian := hamiltonian |}.
Proof.
  unfold LowRankTrotterStep.__init__. intro Hinit.
  destruct (Hamiltonian_two_body_tensor hamiltonian) as [tensor |];
    cbn [result_bind] in Hinit; [| discriminate].
  destruct (low_rank_two_body_decomposition _ _ _ _)
    as [[[[eigenvalues squares] correction] aux] |] eqn:Hdecomposition;
    cbn [result_bind] in Hinit; [| discriminate].
  destruct (Hamiltonian_one_body_tensor hamiltonian) as [raw |];
    cbn [result_bind] in Hinit; [| discriminate].
  destruct (numpy.plus raw correction) as [coefficients |] eqn:Hplus;
    cbn [result_bind] in Hinit; [| discriminate].
  destruct (Hamiltonian_constant hamiltonian) as [constant |];
    cbn [result_bind] in Hinit; [| discriminate].
  destruct (LowRankTrotterStep.prepare_terms _ _ _ _ _ _)
    as [[scaled basis] |] eqn:Hterms;
    cbn [result_bind] in Hinit; [| discriminate].
  inversion Hinit; subst s.
  exists tensor, eigenvalues, squares, correction, aux, raw, coefficients,
    constant, scaled, basis.
  repeat split; first [assumption | reflexivity].
Qed.

(** The loop of the constructor keeps what the two lists held and appends,
    for the i-th index [j], the pair prepared from the square at [j]. *)
Lemma prepare_terms_nth (eigenvalues : list K)
      (one_body_squares : list (ndarray K)) :
  forall (js : list nat) (scaled basis scaled' basis' : list (ndarray K)),
    LowRankTrotterStep.prepare_terms prepare_one_body_squared_evolution
      eigenvalues one_body_squares js scaled basis = Ok (scaled', basis') ->
    (forall i, i < length scaled -> nth_error scaled' i = nth_error scaled i)
    /\ (forall i, i < length basis -> nth_error basis' i = nth_error basis i)
    /\ forall i j,
         nth_error js i = Some j ->
         exists square eigenvalue density b,
           nth_error one_body_squares j = Some square
           /\ nth_error eigenvalues j = Some eigenvalue
           /\ prepare_one_body_squared_evolution square = Ok (density, b)
           /\ nth_error scaled' (length scaled + i)
              = Some (numpy.real (numpy.scale eigenvalue density))
           /\ nth_error basis' (length basis + i) = Some b.
Proof.
  induction js as [| j js IH]; intros scaled basis scaled' basis' Hrun;
    cbn [LowRankTrotterStep.prepare_terms] in Hrun.
  - inversion Hrun; subst. repeat split; try reflexivity.
    intros [| i] j Hnth; discriminate.
  - unfold getitem in Hrun.
    destruct (nth_error one_body_squares j) as [square |] eqn:Hsquare;
      cbn [result_bind] in Hrun; [| discriminate].
    destruct (prepare_one_body_squared_evolution square) as [[density b] |]
      eqn:Hprepare; cbn [result_bind] in Hrun; [| discriminate].
    destruct (nth_error eigenvalues j) as [eigenvalue |] eqn:Heigenvalue;
      cbn [result_bind] in Hrun; [| discriminate].
    destruct (IH _ _ _ _ Hrun) as (Hs & Hb & Hnew).
    rewrite !length_app in Hs, Hb, Hnew. cbn [length] in Hs, Hb, Hnew.
    split; [| split].
    + intros i Hi. rewrite Hs by lia. apply nth_error_app1. exact Hi.
    + intros i Hi. rewrite Hb by lia. apply nth_error_app1. exact Hi.
    + intros [| i] j' Hnth; cbn in Hnth.
      * inversion Hnth; subst j'.
        exists square, eigenvalue, density, b.
        rewrite !Nat.add_0_r, Hs, Hb by lia.
        rewrite !nth_error_app2, !Nat.sub_diag by lia.
        repeat split; first [assumption | reflexivity].
      * destruct (Hnew i j' Hnth) as (sq & ev & d & b' & H1 & H2 & H3 & H4 & H5).
        exists sq, ev, d, b'.
        rewrite length_app in H5. cbn [length] in H5.
        replace (length scaled + S i) with (length scaled + 1 + i) by lia.
        replace (length basis + S i) with (length basis + 1 + i) by lia.
        repeat split; assumption.
Qed.

(** The first round of the loop that fails ends the loop with its
    exception. *)
Lemma prepare_terms_raises (eigenvalues : list K)
      (one_body_squares : list (ndarray K)) (j : nat) (e : exception) :
  (square <- getitem one_body_squares j ;;
   prepare_one_body_squared_evolution square)%result = Raise e ->
  forall (js1 js2 : list nat) (scaled basis : list (ndarray K)),
    (forall i, In i js1 ->
               exists square r eigenvalue,
                 nth_error one_body_squares i = Some square
                 /\ prepare_one_body_squared_evolution square = Ok r
                 /\ nth_error eigenvalues i = Some eigenvalue) ->
    LowRankTrotterStep.prepare_terms prepare_one_body_squared_evolution
      eigenvalues one_body_squares (js1 ++ j :: js2) scaled basis = Raise e.
Proof.
  intros Hfail. induction js1 as [| i js1 IH]; intros js2 scaled basis Hfine;
    cbn [app LowRankTrotterStep.prepare_terms].
  - destruct (getitem one_body_squares j) as [square |];
      cbn [result_bind] in *.
    + rewrite Hfail. reflexivity.
    + inversion Hfail. reflexivity.
  - destruct (Hfine i (or_introl eq_refl))
      as (square & [density b] & eigenvalue & Hsq & Hprep & Hev).
    rewrite (getitem_ok _ _ Hsq). cbn [result_bind]. rewrite Hprep.
    cbn [result_bind]. rewrite (getitem_ok _ _ Hev). cbn [result_bind].
    apply IH. intros i' Hin. apply Hfine. right. exact Hin.
Qed.
End ConstructorFacts.

(** X4: in a constructed step the lists are those of the decomposition,
    term by term: for every j below the number of eigenvalues, the j-th
    scaled matrix is the real part of the j-th eigenvalue times the
    density-density matrix prepared from the j-th one-body square, and the
    j-th basis change matrix is the one prepared with it. *)
Theorem constructor_terms {K : Type} `{Numeric K} {Aux : Type}
        (low_rank_two_body_decomposition :
           ndarray4 K -> option K -> option Z -> bool ->
           result (list K * list (ndarray K) * ndarray K * Aux))
        (prepare_one_body_squared_evolution :
           ndarray K -> result (ndarray K * ndarray K))
        (hamiltonian : Hamiltonian K) (truncation_threshold : option K)
        (final_rank : option Z) (spin_basis : bool)
        (s : LowRankTrotterStep.obj K) (j : nat) :
  LowRankTrotterStep.__init__ low_rank_two_body_decomposition
    prepare_one_body_squared_evolution hamiltonian truncation_threshold
    final_rank spin_basis = Ok s ->
  j < length (LowRankTrotterStep.eigenvalues s) ->
  exists square eigenvalue density basis,
    nth_error (LowRankTrotterStep.one_body_squares s) j = Some square
    /\ nth_error (LowRankTrotterStep.eigenvalues s) j = Some eigenvalue
    /\ prepare_one_body_squared_evolution square = Ok (density, basis)
    /\ nth_error (LowRankTrotterStep.scaled_density_density_matrices s) j
       = Some (numpy.real (numpy.scale eigenvalue density))
    /\ nth_error (LowRankTrotterStep.basis_change_matrices s) j = Some basis.
Proof.
  intros Hinit Hj.
  destruct (constructed_inversion _ _ _ _ _ _ _ Hinit)
    as (tensor & eigenvalues & squares & correction & aux & raw
        & coefficients & constant & scaled & basis
        & _ & _ & _ & _ & _ & Hterms & ->).
  cbn in *.
  destruct (prepare_terms_nth _ _ _ _ _ _ _ _ Hterms) as (_ & _ & Hnth).
  apply (Hnth j j). rewrite nth_error_seq.
  apply Nat.ltb_lt in Hj. rewrite Hj. reflexivity.
Qed.

Lemma constructor_terms_witness :
  LowRankTrotterStep.__init__ Sample.decomposition Sample.prepare
    Sample.hamiltonian None (Some 2%Z) true = Ok (Sample.step 2)
  /\ 1 < length (LowRankTrotterStep.eigenvalues (Sample.step 2))
  /\ exists square eigenvalue density basis,
       nth_error (LowRankTrotterStep.one_body_squares (Sample.step 2)) 1
       = Some square
       /\ nth_error (LowRankTrotterStep.eigenvalues (Sample.step 2)) 1
          = Some eigenvalue
       /\ Sample.prepare square = Ok (density, basis)
       /\ nth_error (LowRankTrotterStep.scaled_density_density_matrices
                       (Sample.step 2)) 1
          = Some (numpy.real (numpy.scale eigenvalue density))
       /\ nth_error (LowRankTrotterStep.basis_change_matrices (Sample.step 2)) 1
          = Some basis.
Proof.
  split; [reflexivity | split; [cbn; lia |]].
  apply (constructor_terms Sample.decomposition Sample.prepare
           Sample.hamiltonian None (Some 2%Z) true (Sample.step 2) 1);
    [reflexivity | cbn; lia].
Defined.

(** X5: a constructed step keeps the eigenvalues and the one-body squares
    as the decomposition returned them for the two-body tensor, the
    threshold, the rank and the basis flag it was given; it keeps the
    constant of the Hamiltonian, the Hamiltonian itself, the threshold and
    the rank; and it has one scaled matrix and one basis change matrix per
    eigenvalue. *)
Theorem constructor_keeps_decomposition {K : Type} `{Numeric K} {Aux : Type}
        (low_rank_two_body_decomposition :
           ndarray4 K -> option K -> option Z -> bool ->
           result (list K * list (ndarray K) * ndarray K * Aux))
        (prepare_one_body_squared_evolution :
           ndarray K -> result (ndarray K * ndarray K))
        (hamiltonian : Hamiltonian K) (truncation_threshold : option K)
        (final_rank : option Z) (spin_basis : bool)
        (s : LowRankTrotterStep.obj K) :
  LowRankTrotterStep.__init__ low_rank_two_body_decomposition
    prepare_one_body_squared_evolution hamiltonian truncation_threshold
    final_rank spin_basis = Ok s ->
  (exists tensor correction aux,
      Hamiltonian_two_body_tensor hamiltonian = Ok tensor
      /\ low_rank_two_body_decomposition
           tensor truncation_threshold final_rank spin_basis
         = Ok (LowRankTrotterStep.eigenvalues s,
               LowRankTrotterStep.one_body_squares s, correction, aux))
  /\ Hamiltonian_constant hamiltonian = Ok (LowRankTrotterStep.constant s)
  /\ LowRankTrotterStep.hamiltonian s = hamiltonian
  /\ LowRankTrotterStep.truncation_threshold s = truncation_threshold
  /\ LowRankTrotterStep.final_rank s = final_rank
  /\ length (LowRankTrotterStep.scaled_density_density_matrices s)
     = length (LowRankTrotterStep.eigenvalues s)
  /\ length (LowRankTrotterStep.basis_change_matrices s)
     = length (LowRankTrotterStep.eigenvalues s).
Proof.
  intro Hinit.
  destruct (constructed_lengths _ _ _ _ _ _ _ Hinit) as [Hls Hlb].
  destruct (constructed_inversion _ _ _ _ _ _ _ Hinit)
    as (tensor & eigenvalues & squares & correction & aux & raw
        & coefficients & constant & scaled & basis
        & Htensor & Hdecomposition & _ & _ & Hconstant & _ & ->).
  cbn in *.
  split; [exists tensor, correction, aux; split; assumption |].
  repeat split; assumption.
Qed.

Lemma constructor_keeps_decomposition_witness :
  LowRankTrotterStep.__init__ Sample.decomposition Sample.prepare
    Sample.hamiltonian None (Some 2%Z) true = Ok (Sample.step 2)
  /\ Hamiltonian_constant Sample.hamiltonian
     = Ok (LowRankTrotterStep.constant (Sample.step 2))
  /\ length (LowRankTrotterStep.basis_change_matrices (Sample.step 2)) = 2.
Proof.
  split; [reflexivity |].
  pose proof (constructor_keeps_decomposition
                Sample.decomposition Sample.prepare Sample.hamiltonian
                None (Some 2%Z) true (Sample.step 2) eq_refl)
    as (_ & Hconstant & _ & _ & _ & _ & Hbasis).
  split; [exact Hconstant | exact Hbasis].
Defined.



(** X7: an exception of the decomposition routine is the exception of the
    constructor, unchanged. *)
Theorem decomposition_failure_propagates
        {K : Type} `{Numeric K} {Aux : Type}
        (low_rank_two_body_decomposition :
           ndarray4 K -> option K -> option Z -> bool ->
           result (list K * list (ndarray K) * ndarray K * Aux))
        (prepare_one_body_squared_evolution :
           ndarray K -> result (ndarray K * ndarray K))
        (hamiltonian : Hamiltonian K) (truncation_threshold : option K)
        (final_rank : option Z) (spin_basis : bool)
        (tensor : ndarray4 K) (e : exception) :
  Hamiltonian_two_body_tensor hamiltonian = Ok tensor ->
  low_rank_two_body_decomposition
    tensor truncation_threshold final_rank spin_basis = Raise e ->
  LowRankTrotterStep.__init__ low_rank_two_body_decomposition
    prepare_one_body_squared_evolution hamiltonian truncation_threshold
    final_rank spin_basis = Raise e.
Proof.
  intros Htensor Hfail. unfold LowRankTrotterStep.__init__.
  rewrite Htensor. cbn [result_bind]. rewrite Hfail. reflexivity.
Qed.

Lemma decomposition_failure_propagates_witness :
  Hamiltonian_two_body_tensor Sample.hamiltonian = Ok Sample.two_body
  /\ LowRankTrotterStep.__init__
       (fun _ _ _ _ =>
          @Raise (list Sample.Zi * list (ndarray Sample.Zi)
                  * ndarray Sample.Zi * unit) (LibraryError 7))
       Sample.prepare Sample.hamiltonian None None true
     = Raise (LibraryError 7).
Proof.
  split; [reflexivity |].
  apply (decomposition_failure_propagates
           (fun _ _ _ _ =>
              @Raise (list Sample.Zi * list (ndarray Sample.Zi)
                      * ndarray Sample.Zi * unit) (LibraryError 7))
           Sample.prepare Sample.hamiltonian None None true
           Sample.two_body (LibraryError 7)); reflexivity.
Defined.

(** X8: if preparing term j fails, by an exception of the routine or
    because there is no j-th one-body square, while the terms before it
    are prepared, the constructor ends with that exception. *)
Theorem term_failure_propagates {K : Type} `{Numeric K} {Aux : Type}
        (low_rank_two_body_decomposition :
           ndarray4 K -> option K -> option Z -> bool ->
           result (list K * list (ndarray K) * ndarray K * Aux))
        (prepare_one_body_squared_evolution :
           ndarray K -> result (ndarray K * ndarray K))
        (hamiltonian : Hamiltonian K) (truncation_threshold : option K)
        (final_rank : option Z) (spin_basis : bool)
        (tensor : ndarray4 K) (eigenvalues : list K)
        (squares : list (ndarray K)) (correction raw coefficients : ndarray K)
        (aux : Aux) (constant : K) (j : nat) (e : exception) :
  Hamiltonian_two_body_tensor hamiltonian = Ok tensor ->
  low_rank_two_body_decomposition
    tensor truncation_threshold final_rank spin_basis
  = Ok (eigenvalues, squares, correction, aux) ->
  Hamiltonian_one_body_tensor hamiltonian = Ok raw ->
  numpy.plus raw correction = Ok coefficients ->
  Hamiltonian_constant hamiltonian = Ok constant ->
  j < length eigenvalues ->
  (forall i, i < j ->
             exists square r,
               nth_error squares i = Some square
               /\ prepare_one_body_squared_evolution square = Ok r) ->
  (square <- getitem squares j ;;
   prepare_one_body_squared_evolution square)%result = Raise e ->
  LowRankTrotterStep.__init__ low_rank_two_body_decomposition
    prepare_one_body_squared_evolution hamiltonian truncation_threshold
    final_rank spin_basis = Raise e.
Proof.
  intros Htensor Hdecomposition Hraw Hplus Hconstant Hj Hbefore Hfail.
  unfold LowRankTrotterStep.__init__.
  rewrite Htensor. cbn [result_bind]. rewrite Hdecomposition.
  cbn [result_bind]. rewrite Hraw. cbn [result_bind]. rewrite Hplus.
  cbn [result_bind]. rewrite Hconstant. cbn [result_bind].
  replace (length eigenvalues) with (j + S (length eigenvalues - S j)) by lia.
  rewrite seq_app. cbn [seq Nat.add].
  rewrite (prepare_terms_raises prepare_one_body_squared_evolution
             eigenvalues squares j e Hfail).
  - reflexivity.
  - intros i Hin. apply in_seq in Hin.
    destruct (Hbefore i ltac:(lia)) as (square & r & Hsquare & Hprepare).
    destruct (nth_error eigenvalues i) as [eigenvalue |] eqn:Hev.
    + exists square, r, eigenvalue. repeat split; assumption.
    + apply nth_error_None in Hev. lia.
Qed.

Lemma term_failure_propagates_witness :
  LowRankTrotterStep.__init__ Sample.decomposition
    (fun _ => @Raise (ndarray Sample.Zi * ndarray Sample.Zi) (LibraryError 3))
    Sample.hamiltonian None (Some 2%Z) true
  = Raise (LibraryError 3).
Proof.
  apply (term_failure_propagates Sample.decomposition
           (fun _ => @Raise (ndarray Sample.Zi * ndarray Sample.Zi)
                            (LibraryError 3))
           Sample.hamiltonian None (Some 2%Z) true Sample.two_body
           (repeat (Sample.Zi_of 2) 2)
           (repeat (Sample.array [[1; 0]; [0; 1]]%Z) 2)
           (Sample.array [[10; 20]; [30; 40]]%Z)
           (Sample.array [[1; 2]; [2; 5]]%Z)
           (LowRankTrotterStep.one_body_coefficients (Sample.step 2))
           tt (Sample.Zi_of 3) 0 (LibraryError 3));
    try reflexivity.
  - cbn. lia.
  - intros i Hi. lia.
Defined.

(** ** The shape of a step *)

Section StepShape.
Context {K : Type} `{Numeric K} {Q : Type}.

Lemma kinds_of_rotations (rads : nat -> K) (qubits : list Q) :
  map kind_of
      (per_qubit (fun p qubit => Op (on (RotZGate (rads p)) [Some qubit]))
                 qubits)
  = repeat (@ZRotation) (length qubits).
Proof.
  unfold per_qubit. rewrite map_map. cbn.
  rewrite map_const, length_combine, length_seq, Nat.min_id. reflexivity.
Qed.

Lemma length_per_qubit {O : Type} (f : nat -> Q -> O) (qubits : list Q) :
  length (per_qubit f qubits) = length qubits.
Proof.
  unfold per_qubit.
  rewrite length_map, length_combine, length_seq, Nat.min_id. reflexivity.
Qed.

Lemma nth_error_combine_some {X Y : Type} (xs : list X) :
  forall (ys : list Y) i x y,
    nth_error xs i = Some x -> nth_error ys i = Some y ->
    nth_error (combine xs ys) i = Some (x, y).
Proof.
  induction xs as [| x0 xs IH]; intros [| y0 ys] [| i] x y Hx Hy;
    cbn in *; try discriminate.
  - inversion Hx; inversion Hy; subst. reflexivity.
  - apply IH; assumption.
Qed.

Lemma nth_error_per_qubit {O : Type} (f : nat -> Q -> O) (qubits : list Q)
      (p : nat) (qubit : Q) :
  nth_error qubits p = Some qubit ->
  nth_error (per_qubit f qubits) p = Some (f p qubit).
Proof.
  intro Hnth. unfold per_qubit. rewrite nth_error_map.
  rewrite (nth_error_combine_some _ _ _ p qubit); [reflexivity | | exact Hnth].
  rewrite nth_error_seq.
  assert (Hp : p < length qubits)
    by (apply nth_error_Some; rewrite Hnth; discriminate).
  apply Nat.ltb_lt in Hp. rewrite Hp. reflexivity.
Qed.

(** What one decomposition term contributes to the kinds of a step. *)
Lemma kinds_of_asymmetric_terms (time : K) (n : nat) :
  forall (terms : list (ndarray K * ndarray K)) (qubits : list Q)
         (prior : ndarray K),
    length qubits = n ->
    map kind_of (asymmetric_terms time terms qubits prior)
    = concat (repeat (BasisTransformation :: SwapNetworkPass
                        :: repeat (@ZRotation) n)
                     (length terms))
        ++ [BasisTransformation].
Proof.
  induction terms as [| term terms IH]; intros qubits prior Hlen.
  - reflexivity.
  - cbn [asymmetric_terms length repeat concat]. unfold asymmetric_term.
    cbn [app map kind_of]. rewrite map_app.
    rewrite (kinds_of_rotations
               (fun p => mul (neg (numpy.item (fst term) p p)) time)).
    rewrite length_rev, Hlen, IH by (rewrite length_rev; exact Hlen).
    rewrite <- app_assoc. reflexivity.
Qed.

Lemma kinds_of_controlled_terms (time : K) (control_qubit : option Q) :
  forall (terms : list (ndarray K * ndarray K)) (qubits : list Q)
         (prior : ndarray K),
    map kind_of (controlled_terms time control_qubit terms qubits prior)
    = concat (repeat [BasisTransformation; SwapNetworkPass;
                      GeneratorExpression]
                     (length terms))
        ++ [BasisTransformation].
Proof.
  induction terms as [| term terms IH]; intros qubits prior.
  - reflexivity.
  - cbn [controlled_terms length repeat concat]. unfold controlled_term.
    cbn [app map kind_of]. rewrite IH. reflexivity.
Qed.

(** The last basis transformation of the terms acts on the qubits in their
    first ordering after an even number of terms and in the reversed one
    after an odd number. *)
Lemma asymmetric_terms_end (time : K) :
  forall (terms : list (ndarray K * ndarray K)) (qubits : list Q)
         (prior : ndarray K),
  exists before,
    asymmetric_terms time terms qubits prior
    = before
        ++ [bogoliubov_transform
              (if Nat.even (length terms) then qubits else rev qubits)
              (last (map snd terms) prior)].
Proof.
  induction terms as [| term terms IH]; intros qubits prior.
  - exists []. reflexivity.
  - destruct (IH (rev qubits) (snd term)) as (before & Hrest).
    exists (asymmetric_term time term qubits prior ++ before).
    cbn [asymmetric_terms map length]. rewrite Hrest, last_cons_default.
    rewrite <- app_assoc, Nat.even_succ, <- Nat.negb_even, rev_involutive.
    destruct (Nat.even (length terms)); reflexivity.
Qed.

Lemma controlled_terms_end (time : K) (control_qubit : option Q) :
  forall (terms : list (ndarray K * ndarray K)) (qubits : list Q)
         (prior : ndarray K),
  exists before,
    controlled_terms time control_qubit terms qubits prior
    = before
        ++ [bogoliubov_transform
              (if Nat.even (length terms) then qubits else rev qubits)
              (last (map snd terms) prior)].
Proof.
  induction terms as [| term terms IH]; intros qubits prior.
  - exists []. reflexivity.
  - destruct (IH (rev qubits) (snd term)) as (before & Hrest).
    exists (controlled_term time control_qubit term qubits prior ++ before).
    cbn [controlled_terms map length]. rewrite Hrest, last_cons_default.
    rewrite <- app_assoc, Nat.even_succ, <- Nat.negb_even, rev_involutive.
    destruct (Nat.even (length terms)); reflexivity.
Qed.

Lemma controlled_terms_basis_chain (time : K) (control_qubit : option Q)
      (n : nat) :
  forall (terms : list (ndarray K * ndarray K)) (qubits : list Q)
         (prior : ndarray K),
    numpy.ncols prior = n ->
    Forall (fun term => numpy.ncols (snd term) = n) terms ->
    map Ok (bogoliubov_matrices
              (controlled_terms time control_qubit terms qubits prior))
    = basis_chain prior (map snd terms).
Proof.
  induction terms as [| term terms IH]; intros qubits prior Hprior Hall.
  - reflexivity.
  - inversion Hall as [| ? ? Hterm Hrest]; subst.
    cbn [controlled_terms map basis_chain]. unfold controlled_term.
    cbn [app bogoliubov_matrices map]. rewrite (IH _ _ Hterm Hrest).
    rewrite dot_ok by (cbn; congruence). reflexivity.
Qed.

Lemma controlled_rotations_all (control_qubit : option Q)
      (rads : nat -> K) (qubits : list Q) :
  Forall (fun o => exists r qubit,
              o = on (Rot11Gate r) [control_qubit; Some qubit])
         (per_qubit (fun p qubit =>
                       on (Rot11Gate (rads p)) [control_qubit; Some qubit])
                    qubits).
Proof.
  unfold per_qubit. apply Forall_forall. intros o Hin.
  apply in_map_iff in Hin. destruct Hin as ([p qubit] & <- & _).
  exists (rads p), qubit. reflexivity.
Qed.

Lemma full_generators_controlled_terms (time : K)
      (control_qubit : option Q) (n : nat) :
  forall (terms : list (ndarray K * ndarray K)) (qubits : list Q)
         (prior : ndarray K),
    length qubits = n ->
    Forall (full_generators control_qubit n)
           (controlled_terms time control_qubit terms qubits prior).
Proof.
  induction terms as [| term terms IH]; intros qubits prior Hlen.
  - repeat constructor.
  - cbn [controlled_terms]. unfold controlled_term. cbn [app].
    constructor; [exact I |]. constructor; [exact I |].
    constructor.
    + cbn. split; [reflexivity |]. split.
      * rewrite length_per_qubit, length_rev. exact Hlen.
      * apply (controlled_rotations_all control_qubit
                 (fun k => mul (neg (numpy.item (fst term) k k)) time)).
    + apply IH. rewrite length_rev. exact Hlen.
Qed.
End StepShape.

Lemma length_concat_repeat {X : Type} (l : list X) (k : nat) :
  length (concat (repeat l k)) = k * length l.
Proof.
  induction k as [| k IH]; [reflexivity |].
  cbn [repeat concat]. rewrite length_app, IH. reflexivity.
Qed.

(** X9: on a well formed step with J terms and as many qubits n as its
    arrays have rows, the asymmetric [trotter_step] runs to its end and
    yields, in this order, the fermionic pass, n rotations about Z, then
    for each term a basis transformation, a pass of the swap network and n
    rotations about Z, and at last one basis transformation:
    [2 + n + J * (n + 2)] values. *)
Theorem asymmetric_step_kinds {K : Type} `{Numeric K} {Q : Type}
        (n : nat) (s : LowRankTrotterStep.obj K) (qubits : list Q) (time : K)
        (control_qubit : option Q) :
  well_formed n s = true ->
  length qubits = n ->
  returned (AsymmetricLowRankTrotterStep.trotter_step
              qubits time control_qubit s) = Ok tt
  /\ map kind_of (yielded (AsymmetricLowRankTrotterStep.trotter_step
                             qubits time control_qubit s))
     = FermionicSwapNetworkPass
         :: repeat (@ZRotation) n
         ++ concat (repeat (BasisTransformation :: SwapNetworkPass
                              :: repeat (@ZRotation) n)
                           (length (LowRankTrotterStep.eigenvalues s)))
         ++ [BasisTransformation]
  /\ length (yielded (AsymmetricLowRankTrotterStep.trotter_step
                        qubits time control_qubit s))
     = 2 + n + length (LowRankTrotterStep.eigenvalues s) * (n + 2).
Proof.
  intros Hwf Hlen.
  rewrite (asymmetric_trotter_step_yields s qubits time control_qubit Hwf Hlen).
  cbn [returned yielded fst snd].
  assert (Hkinds :
    map kind_of (asymmetric_step s qubits time)
    = FermionicSwapNetworkPass
        :: repeat (@ZRotation) n
        ++ concat (repeat (BasisTransformation :: SwapNetworkPass
                             :: repeat (@ZRotation) n)
                          (length (LowRankTrotterStep.eigenvalues s)))
        ++ [BasisTransformation]).
  { unfold asymmetric_step. cbn [map kind_of]. rewrite map_app.
    rewrite (kinds_of_rotations
               (fun p => mul (neg (real_part
                                     (numpy.item
                                        (LowRankTrotterStep.one_body_coefficients s)
                                        p p)))
                             time)).
    rewrite (kinds_of_asymmetric_terms time n)
      by (rewrite length_rev; exact Hlen).
    rewrite length_rev, Hlen, (terms_length _ _ Hwf). reflexivity. }
  split; [reflexivity |]. split; [exact Hkinds |].
  rewrite <- (length_map kind_of), Hkinds. cbn [length].
  rewrite !length_app, length_concat_repeat, repeat_length.
  cbn [length]. rewrite repeat_length. lia.
Qed.

Lemma asymmetric_step_kinds_witness :
  well_formed 2 (Sample.step 3) = true
  /\ length Sample.qubits = 2
  /\ length (yielded (AsymmetricLowRankTrotterStep.trotter_step
                        Sample.qubits (Sample.Zi_of 1) None (Sample.step 3)))
     = 16.
Proof.
  split; [reflexivity | split; [reflexivity |]].
  apply (asymmetric_step_kinds 2 (Sample.step 3) Sample.qubits
           (Sample.Zi_of 1) None); reflexivity.
Defined.

(** X10: on a well formed step with J terms and as many qubits n as its
    arrays have rows, the controlled [trotter_step] runs to its end and
    yields [4 + 3 * J] values: the fermionic pass, a generator expression,
    then for each term a basis transformation, a pass of the swap network
    and a generator expression, then the last basis transformation and
    the rotation about Z.  Each generator expression holds n controlled
    rotations, each on the control qubit and one qubit, and ends without
    an exception. *)
Theorem controlled_step_kinds {K : Type} `{Numeric K} {Q : Type}
        (n : nat) (s : LowRankTrotterStep.obj K) (qubits : list Q) (time : K)
        (control_qubit : option Q) :
  well_formed n s = true ->
  length qubits = n ->
  returned (ControlledAsymmetricLowRankTrotterStep.trotter_step
              qubits time control_qubit s) = Ok tt
  /\ map kind_of (yielded (ControlledAsymmetricLowRankTrotterStep.trotter_step
                             qubits time control_qubit s))
     = FermionicSwapNetworkPass :: GeneratorExpression
         :: concat (repeat [BasisTransformation; SwapNetworkPass;
                            GeneratorExpression]
                           (length (LowRankTrotterStep.eigenvalues s)))
         ++ [BasisTransformation; ZRotation]
  /\ length (yielded (ControlledAsymmetricLowRankTrotterStep.trotter_step
                        qubits time control_qubit s))
     = 4 + 3 * length (LowRankTrotterStep.eigenvalues s)
  /\ Forall (full_generators control_qubit n)
            (yielded (ControlledAsymmetricLowRankTrotterStep.trotter_step
                        qubits time control_qubit s)).
Proof.
  intros Hwf Hlen.
  rewrite (controlled_trotter_step_yields s qubits time control_qubit Hwf Hlen).
  cbn [returned yielded fst snd].
  assert (Hkinds :
    map kind_of (controlled_step s qubits time control_qubit)
    = FermionicSwapNetworkPass :: GeneratorExpression
        :: concat (repeat [BasisTransformation; SwapNetworkPass;
                           GeneratorExpression]
                          (length (LowRankTrotterStep.eigenvalues s)))
        ++ [BasisTransformation; ZRotation]).
  { unfold controlled_step. cbn [map kind_of]. rewrite map_app.
    rewrite kinds_of_controlled_terms, (terms_length _ _ Hwf).
    rewrite <- app_assoc. reflexivity. }
  split; [reflexivity |]. split; [exact Hkinds |]. split.
  - rewrite <- (length_map kind_of), Hkinds. cbn [length].
    rewrite !length_app, length_concat_repeat. cbn [length]. lia.
  - unfold controlled_step.
    constructor; [exact I |]. constructor.
    + cbn. split; [reflexivity |]. split.
      * rewrite length_per_qubit, length_rev. exact Hlen.
      * apply (controlled_rotations_all control_qubit
                 (fun j => mul (neg (real_part
                                       (numpy.item
                                          (LowRankTrotterStep.one_body_coefficients s)
                                          j j)))
                               time)).
    + apply Forall_app. split.
      * apply full_generators_controlled_terms.
        rewrite length_rev. exact Hlen.
      * constructor; [exact I | constructor].
Qed.

Lemma controlled_step_kinds_witness :
  well_formed 2 (Sample.step 3) = true
  /\ length Sample.qubits = 2
  /\ length (yielded (ControlledAsymmetricLowRankTrotterStep.trotter_step
                        Sample.qubits (Sample.Zi_of 1) (Some 7)
                        (Sample.step 3)))
     = 13.
Proof.
  split; [reflexivity | split; [reflexivity |]].
  apply (controlled_step_kinds 2 (Sample.step 3) Sample.qubits
           (Sample.Zi_of 1) (Some 7)); reflexivity.
Defined.

(** X11: in both variants the last basis transformation of a step acts on
    the qubits in the ordering [step_qubit_permutation] returns for them,
    and carries the basis change matrix of the last term (the identity
    when there is no term). *)
Theorem last_basis_transformation_ordering
        {K : Type} `{Numeric K} {Q : Type}
        (n : nat) (s : LowRankTrotterStep.obj K) (qubits : list Q) (time : K)
        (control_qubit : option Q) :
  well_formed n s = true ->
  length qubits = n ->
  (exists before,
      yielded (AsymmetricLowRankTrotterStep.trotter_step
                 qubits time control_qubit s)
      = before
          ++ [bogoliubov_transform
                (fst (fst (AsymmetricLowRankTrotterStep.step_qubit_permutation
                             qubits control_qubit s)))
                (last (LowRankTrotterStep.basis_change_matrices s)
                      (numpy.identity n))])
  /\ exists before,
       yielded (ControlledAsymmetricLowRankTrotterStep.trotter_step
                  qubits time control_qubit s)
       = before
           ++ [bogoliubov_transform
                 (fst (fst (ControlledAsymmetricLowRankTrotterStep.step_qubit_permutation
                              qubits control_qubit s)))
                 (last (LowRankTrotterStep.basis_change_matrices s)
                       (numpy.identity n));
               Op (on (RotZGate
                         (mul (neg (LowRankTrotterStep.constant s)) time))
                      [control_qubit])].
Proof.
  intros Hwf Hlen.
  rewrite (asymmetric_trotter_step_yields s qubits time control_qubit Hwf Hlen).
  rewrite (controlled_trotter_step_yields s qubits time control_qubit Hwf Hlen).
  rewrite asymmetric_permutation, controlled_permutation.
  destruct (well_formed_true _ _ Hwf) as (_ & _ & Hls & Hlb & _).
  cbn [yielded fst]. split.
  - unfold asymmetric_step.
    destruct (asymmetric_terms_end time
                (combine (LowRankTrotterStep.scaled_density_density_matrices s)
                         (LowRankTrotterStep.basis_change_matrices s))
                (rev qubits) (numpy.identity (length qubits)))
      as (before & Hterms).
    rewrite Hterms, map_snd_combine, (terms_length _ _ Hwf), Hlen,
      rev_involutive by congruence.
    eexists (_ :: _ ++ before). cbn [app]. rewrite <- app_assoc.
    destruct (Nat.even _); reflexivity.
  - unfold controlled_step.
    destruct (controlled_terms_end time control_qubit
                (combine (LowRankTrotterStep.scaled_density_density_matrices s)
                         (LowRankTrotterStep.basis_change_matrices s))
                (rev qubits) (numpy.identity (length qubits)))
      as (before & Hterms).
    rewrite Hterms, map_snd_combine, (terms_length _ _ Hwf), Hlen,
      rev_involutive by congruence.
    eexists (_ :: _ :: before). cbn [app]. rewrite <- app_assoc.
    destruct (Nat.even _); reflexivity.
Qed.

Lemma last_basis_transformation_ordering_witness :
  well_formed 2 (Sample.step 2) = true
  /\ length Sample.qubits = 2
  /\ exists before,
       yielded (AsymmetricLowRankTrotterStep.trotter_step
                  Sample.qubits (Sample.Zi_of 1) None (Sample.step 2))
       = before
           ++ [bogoliubov_transform
                 (fst (fst (AsymmetricLowRankTrotterStep.step_qubit_permutation
                              Sample.qubits None (Sample.step 2))))
                 (last (LowRankTrotterStep.basis_change_matrices
                          (Sample.step 2))
                       (numpy.identity 2))].
Proof.
  split; [reflexivity | split; [reflexivity |]].
  apply (last_basis_transformation_ordering 2 (Sample.step 2) Sample.qubits
           (Sample.Zi_of 1) None); reflexivity.
Defined.

(** X12: the basis transformations of the controlled [trotter_step] carry
    the same matrices as those of the asymmetric one: for the terms in
    order the product of the prior basis matrix and the conjugate
    transpose of the term's basis change matrix, and at last the last
    prior basis matrix. *)
Theorem controlled_step_basis_changes {K : Type} `{Numeric K} {Q : Type}
        (n : nat) (s : LowRankTrotterStep.obj K) (qubits : list Q) (time : K)
        (control_qubit : option Q) :
  well_formed n s = true ->
  length qubits = n ->
  map Ok (bogoliubov_matrices
            (yielded (ControlledAsymmetricLowRankTrotterStep.trotter_step
                        qubits time control_qubit s)))
  = basis_chain (numpy.identity n) (LowRankTrotterStep.basis_change_matrices s)
  /\ bogoliubov_matrices
       (yielded (ControlledAsymmetricLowRankTrotterStep.trotter_step
                   qubits time control_qubit s))
     = bogoliubov_matrices
         (yielded (AsymmetricLowRankTrotterStep.trotter_step
                     qubits time None s)).
Proof.
  intros Hwf Hlen.
  rewrite (controlled_trotter_step_yields s qubits time control_qubit Hwf Hlen).
  rewrite (asymmetric_trotter_step_yields s qubits time None Hwf Hlen).
  destruct (well_formed_true _ _ Hwf) as (_ & _ & Hls & Hlb & _).
  cbn [yielded fst].
  assert (Hcontrolled :
    map Ok (bogoliubov_matrices (controlled_step s qubits time control_qubit))
    = basis_chain (numpy.identity n)
                  (LowRankTrotterStep.basis_change_matrices s)).
  { unfold controlled_step. cbn [bogoliubov_matrices].
    rewrite bogoliubov_matrices_app. cbn [bogoliubov_matrices].
    rewrite app_nil_r.
    rewrite (controlled_terms_basis_chain time control_qubit n).
    - rewrite map_snd_combine by congruence. rewrite Hlen. reflexivity.
    - cbn. exact Hlen.
    - apply terms_columns. exact Hwf. }
  assert (Hasymmetric :
    map Ok (bogoliubov_matrices (asymmetric_step s qubits time))
    = basis_chain (numpy.identity n)
                  (LowRankTrotterStep.basis_change_matrices s)).
  { unfold asymmetric_step. cbn [bogoliubov_matrices].
    rewrite bogoliubov_matrices_app.
    rewrite (bogoliubov_matrices_per_qubit
               (fun p qubit =>
                  on (RotZGate
                        (mul (neg (real_part
                                     (numpy.item
                                        (LowRankTrotterStep.one_body_coefficients s)
                                        p p)))
                             time))
                     [Some qubit])).
    cbn [app].
    rewrite (asymmetric_terms_basis_chain time n).
    - rewrite map_snd_combine by congruence. rewrite Hlen. reflexivity.
    - cbn. exact Hlen.
    - apply terms_columns. exact Hwf. }
  split; [exact Hcontrolled |].
  rewrite <- Hasymmetric in Hcontrolled.
  revert Hcontrolled.
  generalize (bogoliubov_matrices (controlled_step s qubits time control_qubit)).
  generalize (bogoliubov_matrices (asymmetric_step s qubits time)).
  intros xs ys. revert xs.
  induction ys as [| y ys IH]; intros [| x xs] Heq; cbn in Heq;
    try discriminate; [reflexivity |].
  inversion Heq; subst. f_equal. apply IH. assumption.
Qed.

Lemma controlled_step_basis_changes_witness :
  well_formed 2 (Sample.step 2) = true
  /\ length Sample.qubits = 2
  /\ map Ok (bogoliubov_matrices
               (yielded (ControlledAsymmetricLowRankTrotterStep.trotter_step
                           Sample.qubits (Sample.Zi_of 1) (Some 7)
                           (Sample.step 2))))
     = basis_chain (numpy.identity 2)
                   (LowRankTrotterStep.basis_change_matrices (Sample.step 2)).
Proof.
  split; [reflexivity | split; [reflexivity |]].
  apply (controlled_step_basis_changes 2 (Sample.step 2) Sample.qubits
           (Sample.Zi_of 1) (Some 7)); reflexivity.
Defined.

(** X13: the rotation of the diagonal one-body coefficient at (p, p) is
    the value yielded at position [p + 1], and it acts on the qubit that is
    p-th after the fermionic pass reversed the ordering, that is on the
    qubit at position [n - 1 - p] of the qubits given. *)
Theorem one_body_rotation_qubit {K : Type} `{Numeric K} {Q : Type}
        (n : nat) (s : LowRankTrotterStep.obj K) (qubits : list Q) (time : K)
        (control_qubit : option Q) (p : nat) :
  well_formed n s = true ->
  length qubits = n ->
  p < n ->
  exists qubit,
    nth_error qubits (n - S p) = Some qubit
    /\ nth_error (yielded (AsymmetricLowRankTrotterStep.trotter_step
                             qubits time control_qubit s)) (S p)
       = Some (Op (on (RotZGate
                         (mul (neg (real_part
                                      (numpy.item
                                         (LowRankTrotterStep.one_body_coefficients s)
                                         p p)))
                              time))
                      [Some qubit])).
Proof.
  intros Hwf Hlen Hp.
  rewrite (asymmetric_trotter_step_yields s qubits time control_qubit Hwf Hlen).
  cbn [yielded fst]. unfold asymmetric_step.
  pose proof (nth_error_rev p qubits) as Hrev.
  rewrite Hlen in Hrev. apply Nat.ltb_lt in Hp. rewrite Hp in Hrev.
  apply Nat.ltb_lt in Hp.
  destruct (nth_error qubits (n - S p)) as [qubit |] eqn:Hqubit.
  - exists qubit. split; [reflexivity |].
    cbn [nth_error]. rewrite nth_error_app1
      by (rewrite length_per_qubit, length_rev; lia).
    apply (nth_error_per_qubit
             (fun p qubit =>
                Op (on (RotZGate
                          (mul (neg (real_part
                                       (numpy.item
                                          (LowRankTrotterStep.one_body_coefficients s)
                                          p p)))
                               time))
                       [Some qubit]))).
    exact Hrev.
  - apply nth_error_None in Hqubit. lia.
Qed.

Lemma one_body_rotation_qubit_witness :
  well_formed 2 (Sample.step 2) = true
  /\ length Sample.qubits = 2
  /\ 0 < 2
  /\ exists qubit,
       nth_error Sample.qubits (2 - 1) = Some qubit
       /\ nth_error (yielded (AsymmetricLowRankTrotterStep.trotter_step
                                Sample.qubits (Sample.Zi_of 1) None
                                (Sample.step 2))) 1
          = Some (Op (on (RotZGate
                            (mul (neg (real_part
                                         (numpy.item
                                            (LowRankTrotterStep.one_body_coefficients
                                               (Sample.step 2))
                                            0 0)))
                                 (Sample.Zi_of 1)))
                         [Some qubit])).
Proof.
  split; [reflexivity | split; [reflexivity | split; [lia |]]].
  apply (one_body_rotation_qubit 2 (Sample.step 2) Sample.qubits
           (Sample.Zi_of 1) None 0); [reflexivity | reflexivity | lia].
Defined.

(** ** A step on the wrong number of qubits *)

Lemma bind_raises {S O A B : Type} (m : Gen S O A) (k : A -> Gen S O B)
      (s s' : S) (out : list O) (e : exception) :
  m s = (out, Raise e, s') -> bind m k s = (out, Raise e, s').
Proof. intro Hm. unfold bind. rewrite Hm. reflexivity. Qed.

(** X15: given fewer qubits than the arrays of a step with at least one
    term have rows, the asymmetric [trotter_step] raises the value error
    of [numpy.dot] at the first term, the identity on the qubits not
    fitting the basis change matrix: it has then yielded the fermionic pass
    and one rotation per qubit, and no basis transformation. *)
Theorem too_few_qubits {K : Type} `{Numeric K} {Q : Type}
        (N : nat) (s : LowRankTrotterStep.obj K) (qubits : list Q) (time : K)
        (control_qubit : option Q) :
  well_formed N s = true ->
  length qubits < N ->
  0 < length (LowRankTrotterStep.eigenvalues s) ->
  returned (AsymmetricLowRankTrotterStep.trotter_step
              qubits time control_qubit s) = Raise ValueError
  /\ map kind_of (yielded (AsymmetricLowRankTrotterStep.trotter_step
                             qubits time control_qubit s))
     = FermionicSwapNetworkPass :: repeat (@ZRotation) (length qubits).
Proof.
  intros Hwf Hfew Hterms.
  destruct (well_formed_true _ _ Hwf) as (Hrows & Hcols & Hls & Hlb & _).
  assert (Hrun :
    AsymmetricLowRankTrotterStep.trotter_step qubits time control_qubit s
    = (swap_network qubits
         (Some (fun p q a b =>
            (c <- numpy.getitem2 (LowRankTrotterStep.one_body_coefficients s)
                                 p q ;;
             Ok (on (XXYYGate (mul (real_part c) time))
                    [Some a; Some b]))%result))
         true
       :: per_qubit
            (fun p qubit =>
               Op (on (RotZGate
                         (mul (neg (real_part
                                      (numpy.item
                                         (LowRankTrotterStep.one_body_coefficients s)
                                         p p)))
                              time))
                      [Some qubit]))
            (rev qubits),
       Raise ValueError, s)).
  { unfold AsymmetricLowRankTrotterStep.trotter_step.
    etransitivity.
    - eapply bind_ok; [reflexivity |].
      eapply bind_ok; [reflexivity |].
      eapply bind_ok.
      { apply for_each_per_qubit with (qubits := rev qubits).
        - apply length_rev.
        - intros p x Hnth Hp. unfold bind, gets, lift, yield.
          rewrite getitem2_ok by lia. rewrite (getitem_ok _ _ Hnth).
          reflexivity. }
      eapply bind_ok; [reflexivity |].
      apply bind_raises. cbv beta.
      destruct (length (LowRankTrotterStep.eigenvalues s)) as [| J] eqn:HJ;
        [lia |].
      cbn [seq for_fold]. apply bind_raises.
      destruct (nth_error (LowRankTrotterStep.scaled_density_density_matrices s) 0)
        as [coefficients |] eqn:Hc;
        [| apply nth_error_None in Hc; lia].
      destruct (nth_error (LowRankTrotterStep.basis_change_matrices s) 0)
        as [basis |] eqn:Hb;
        [| apply nth_error_None in Hb; lia].
      destruct (term_at N s 0 (term := (coefficients, basis)) Hwf)
        as (_ & _ & _ & _ & _ & Hbc).
      { apply nth_error_combine_some; assumption. }
      cbn [fst snd] in Hbc.
      eapply bind_ok; [reflexivity |].
      eapply bind_ok; [apply lift_ok; apply getitem_ok; exact Hc |].
      eapply bind_ok; [reflexivity |].
      eapply bind_ok; [apply lift_ok; apply getitem_ok; exact Hb |].
      apply bind_raises. unfold lift, numpy.dot. cbn.
      assert (Hne : (length qubits =? numpy.ncols basis) = false)
        by (apply Nat.eqb_neq; lia).
      rewrite Hne. reflexivity.
    - cbn [app]. rewrite !app_nil_r. reflexivity. }
  rewrite Hrun. cbn [returned yielded fst snd map kind_of].
  split; [reflexivity |]. f_equal.
  rewrite (kinds_of_rotations
             (fun p => mul (neg (real_part
                                   (numpy.item
                                      (LowRankTrotterStep.one_body_coefficients s)
                                      p p)))
                           time)).
  rewrite length_rev. reflexivity.
Qed.

Lemma too_few_qubits_witness :
  well_formed 2 (Sample.step 1) = true
  /\ length [5] < 2
  /\ 0 < length (LowRankTrotterStep.eigenvalues (Sample.step 1))
  /\ returned (AsymmetricLowRankTrotterStep.trotter_step
                 [5] (Sample.Zi_of 1) None (Sample.step 1))
     = Raise ValueError.
Proof.
  split; [reflexivity | split; [cbn; lia | split; [cbn; lia |]]].
  apply (too_few_qubits 2 (Sample.step 1) [5] (Sample.Zi_of 1) None);
    [reflexivity | cbn; lia | cbn; lia].
Defined.

(** ** More on the cleanup and the permutation *)

(** X16: for every input, the controlled [finish] yields nothing when the
    final swaps are omitted or [n_steps] is even, and otherwise the
    fermionic pass followed, exactly when J is odd, by one more pass that
    is not fermionic; both passes are on the qubits given and carry no
    operation.  The control qubit has no bearing on it. *)
Theorem controlled_finish_passes {K : Type} `{Numeric K} {Q : Type}
        (s : LowRankTrotterStep.obj K) (qubits : list Q) (n_steps : Z)
        (control_qubit : option Q) (omit_final_swaps : bool) :
  ControlledAsymmetricLowRankTrotterStep.finish
    qubits n_steps control_qubit omit_final_swaps s
  = ((if negb omit_final_swaps && Z.odd n_steps
      then swap_network qubits None true
             :: (if Nat.odd (length (LowRankTrotterStep.eigenvalues s))
                 then [swap_network qubits None false] else [])
      else []),
     Ok tt, s).
Proof.
  unfold ControlledAsymmetricLowRankTrotterStep.finish.
  rewrite truthy_Z_land.
  destruct omit_final_swaps, (Z.odd n_steps); cbn [negb andb];
    try reflexivity.
  unfold bind, yield, gets. rewrite truthy_nat_land.
  destruct (Nat.odd _); reflexivity.
Qed.

(** X17: [step_qubit_permutation] is its own inverse on the ordering, in
    both variants: applied to the ordering it returned, it returns the
    ordering it was first given. *)
Theorem step_qubit_permutation_involutive {K : Type} `{Numeric K} {Q : Type}
        (s : LowRankTrotterStep.obj K) (qubits : list Q)
        (control_qubit control_qubit' : option Q) :
  fst (fst (AsymmetricLowRankTrotterStep.step_qubit_permutation
              (fst (fst (AsymmetricLowRankTrotterStep.step_qubit_permutation
                           qubits control_qubit s)))
              control_qubit' s))
  = qubits
  /\ fst (fst (ControlledAsymmetricLowRankTrotterStep.step_qubit_permutation
                 (fst (fst (ControlledAsymmetricLowRankTrotterStep.step_qubit_permutation
                              qubits control_qubit s)))
                 control_qubit' s))
     = qubits.
Proof.
  rewrite !asymmetric_permutation, !controlled_permutation.
  destruct (Nat.even _); rewrite ?rev_involutive; split; reflexivity.
Qed.

(** X18: composing [step_qubit_permutation] over [n] steps reverses the
    ordering exactly when J is even and [n] is odd, and leaves it as it
    is otherwise. *)
Theorem steps_permutation_parity {K : Type} `{Numeric K} {Q : Type}
        (s : LowRankTrotterStep.obj K) (n : nat) (ordering : list Q) :
  ordering_after_steps s n ordering
  = (if Nat.even (length (LowRankTrotterStep.eigenvalues s)) && Nat.odd n
     then rev ordering else ordering).
Proof. apply ordering_after_steps_parity. Qed.

(** X19: with each pass of a swap network reversing the ordering of the
    qubits, the passes [finish] yields after [n_steps] steps undo what
    [step_qubit_permutation] reports for those steps: the qubits are back
    in the ordering before the first step, for every J and every number
    of steps. *)
Theorem finish_undoes_the_steps {K : Type} `{Numeric K} {Q : Type}
        (s : LowRankTrotterStep.obj K) (qubits ordering : list Q)
        (n_steps : nat) (control_qubit : option Q) :
  ordering_after
    (yielded (AsymmetricLowRankTrotterStep.finish
                qubits (Z.of_nat n_steps) control_qubit false s))
    (ordering_after_steps s n_steps ordering)
  = ordering
  /\ ordering_after
       (yielded (ControlledAsymmetricLowRankTrotterStep.finish
                   qubits (Z.of_nat n_steps) control_qubit false s))
       (ordering_after_steps s n_steps ordering)
     = ordering.
Proof.
  split; [apply finish_restores_ordering |].
  exact (finish_restores_ordering s qubits ordering n_steps control_qubit).
Qed.

(** X20: with each pass of a swap network reversing the ordering of the
    qubits, the passes a step yields, one for the one-body terms and one
    per decomposition term, reorder the qubits the way
    [step_qubit_permutation] reports. *)
Theorem step_passes_match_permutation {K : Type} `{Numeric K} {Q : Type}
        (n : nat) (s : LowRankTrotterStep.obj K)
        (qubits ordering : list Q) (time : K) (control_qubit : option Q) :
  well_formed n s = true ->
  length qubits = n ->
  ordering_after
    (yielded (AsymmetricLowRankTrotterStep.trotter_step
                qubits time control_qubit s)) ordering
  = fst (fst (AsymmetricLowRankTrotterStep.step_qubit_permutation
                ordering control_qubit s))
  /\ passes true (yielded (AsymmetricLowRankTrotterStep.trotter_step
                             qubits time control_qubit s)) = 1
  /\ passes false (yielded (AsymmetricLowRankTrotterStep.trotter_step
                              qubits time control_qubit s))
     = length (LowRankTrotterStep.eigenvalues s).
Proof.
  intros Hwf Hlen.
  split; [apply (trotter_step_ordering n); assumption |].
  rewrite (asymmetric_trotter_step_yields s qubits time control_qubit Hwf Hlen).
  cbn [yielded fst]. unfold asymmetric_step.
  assert (Hrot : forall (fermionic : bool) (rads : nat -> K) (l : list Q),
             filter (is_pass fermionic)
                    (per_qubit (fun p qubit =>
                                  Op (on (RotZGate (rads p)) [Some qubit])) l)
             = []).
  { intros fermionic rads l. unfold per_qubit.
    induction (combine (seq 0 (length l)) l) as [| x xs IH];
      [reflexivity | exact IH]. }
  assert (Hterms : forall (fermionic : bool) terms (l : list Q) prior,
             length (filter (is_pass fermionic)
                            (asymmetric_terms time terms l prior))
             = if fermionic then 0 else length terms).
  { intros fermionic terms.
    induction terms as [| term terms IH]; intros l prior.
    - destruct fermionic; reflexivity.
    - cbn [asymmetric_terms]. unfold asymmetric_term.
      cbn [app filter is_pass]. rewrite filter_app, Hrot. cbn [app].
      destruct fermionic; cbn [Bool.eqb length]; rewrite IH; reflexivity. }
  unfold passes. cbn [filter is_pass Bool.eqb].
  rewrite !filter_app, !Hrot. cbn [app length].
  rewrite !Hterms, (terms_length _ _ Hwf).
  split; reflexivity.
Qed.

Lemma step_passes_match_permutation_witness :
  well_formed 2 (Sample.step 2) = true
  /\ length Sample.qubits = 2
  /\ passes false (yielded (AsymmetricLowRankTrotterStep.trotter_step
                              Sample.qubits (Sample.Zi_of 1) None
                              (Sample.step 2)))
     = length (LowRankTrotterStep.eigenvalues (Sample.step 2)).
Proof.
  split; [reflexivity | split; [reflexivity |]].
  apply (step_passes_match_permutation 2 (Sample.step 2) Sample.qubits
           Sample.qubits (Sample.Zi_of 1) None); reflexivity.
Defined.

(** ** More on the factory *)

(** X21: the two factory methods construct the same step from the same
    Hamiltonian and differ only in the variant they return: both return a
    step, with all attributes equal, or both raise the same exception. *)
Theorem factory_variants_agree {K : Type} `{Numeric K} {Aux : Type}
        (low_rank_two_body_decomposition :
           ndarray4 K -> option K -> option Z -> bool ->
           result (list K * list (ndarray K) * ndarray K * Aux))
        (prepare_one_body_squared_evolution :
           ndarray K -> result (ndarray K * ndarray K))
        (self : LowRankTrotterAlgorithm.obj K) (hamiltonian : Hamiltonian K) :
  match
    LowRankTrotterAlgorithm.asymmetric low_rank_two_body_decomposition
      prepare_one_body_squared_evolution self hamiltonian,
    LowRankTrotterAlgorithm.controlled_asymmetric
      low_rank_two_body_decomposition prepare_one_body_squared_evolution
      self hamiltonian
  with
  | Ok (Some (LowRankTrotterAlgorithm.Asymmetric a)),
    Ok (Some (LowRankTrotterAlgorithm.ControlledAsymmetric c)) =>
      a = c
      /\ LowRankTrotterStep.hamiltonian a = hamiltonian
      /\ LowRankTrotterStep.truncation_threshold a
         = LowRankTrotterAlgorithm.truncation_threshold self
      /\ LowRankTrotterStep.final_rank a
         = LowRankTrotterAlgorithm.final_rank self
  | Raise e, Raise e' => e = e'
  | _, _ => False
  end.
Proof.
  unfold LowRankTrotterAlgorithm.asymmetric,
    LowRankTrotterAlgorithm.controlled_asymmetric.
  destruct (LowRankTrotterStep.__init__ _ _ _ _ _ _) as [step | e] eqn:Hinit;
    cbn [result_bind]; [| reflexivity].
  destruct (constructed_inversion _ _ _ _ _ _ _ Hinit)
    as (tensor & eigenvalues & squares & correction & aux & raw
        & coefficients & constant & scaled & basis
        & _ & _ & _ & _ & _ & _ & ->).
  repeat split.
Qed.

(** ** The one-body coefficients in the first pass *)

Lemma yielded_bind_gets {S O A B : Type} (f : S -> A) (k : A -> Gen S O B)
      (s : S) :
  yielded (bind (gets f) k s) = yielded (k (f s) s).
Proof.
  unfold bind, gets, yielded. destruct (k (f s) s) as [[out r] s'].
  reflexivity.
Qed.

Lemma yielded_bind_yield {S O B : Type} (o : O) (k : unit -> Gen S O B)
      (s : S) :
  yielded (bind (yield o) k s) = o :: yielded (k tt s).
Proof.
  unfold bind, yield, yielded. destruct (k tt s) as [[out r] s'].
  reflexivity.
Qed.

(** X22: the first value a step of a constructed object yields, whatever
    the qubits and whether or not the step then runs to its end, is the
    fermionic pass of the swap network on the qubits given, with a function
    that for indices (p, q) within the one-body tensor applies the gate of
    duration [Re(one_body_tensor[p, q] + one_body_correction[p, q]) * time]
    to the two qubits it is given (with the control qubit before them in
    the controlled variant), and that raises the index error for indices
    beyond the tensor. *)
Theorem one_body_swap_network_function
        {K : Type} `{Numeric K} {Aux Q : Type}
        (low_rank_two_body_decomposition :
           ndarray4 K -> option K -> option Z -> bool ->
           result (list K * list (ndarray K) * ndarray K * Aux))
        (prepare_one_body_squared_evolution :
           ndarray K -> result (ndarray K * ndarray K))
        (hamiltonian : Hamiltonian K) (truncation_threshold : option K)
        (final_rank : option Z) (spin_basis : bool)
        (s : LowRankTrotterStep.obj K)
        (qubits : list Q) (time : K) (control_qubit : option Q) :
  LowRankTrotterStep.__init__ low_rank_two_body_decomposition
    prepare_one_body_squared_evolution hamiltonian truncation_threshold
    final_rank spin_basis = Ok s ->
  exists raw correction f g rest rest',
    Hamiltonian_one_body_tensor hamiltonian = Ok raw
    /\ (exists tensor eigenvalues squares aux,
           Hamiltonian_two_body_tensor hamiltonian = Ok tensor
           /\ low_rank_two_body_decomposition
                tensor truncation_threshold final_rank spin_basis
              = Ok (eigenvalues, squares, correction, aux))
    /\ yielded (AsymmetricLowRankTrotterStep.trotter_step
                  qubits time control_qubit s)
       = swap_network qubits (Some f) true :: rest
    /\ yielded (ControlledAsymmetricLowRankTrotterStep.trotter_step
                  qubits time control_qubit s)
       = swap_network qubits (Some g) true :: rest'
    /\ forall p q a b,
         f p q a b
         = (if (p <? numpy.nrows raw) && (q <? numpy.ncols raw)
            then Ok (on (XXYYGate
                           (mul (real_part (add (numpy.item raw p q)
                                                (numpy.item correction p q)))
                                time))
                        [Some a; Some b])
            else Raise IndexError)
         /\ g p q a b
            = (if (p <? numpy.nrows raw) && (q <? numpy.ncols raw)
               then Ok (on (ControlledXXYYGate
                              (mul (real_part (add (numpy.item raw p q)
                                                   (numpy.item correction p q)))
                                   time))
                           [control_qubit; Some a; Some b])
               else Raise IndexError).
Proof.
  intro Hinit.
  destruct (constructed_inversion _ _ _ _ _ _ _ Hinit)
    as (tensor & eigenvalues & squares & correction & aux & raw
        & coefficients & constant & scaled & basis
        & Htensor & Hdecomposition & Hraw & Hplus & _ & _ & ->).
  unfold numpy.plus in Hplus. destruct (_ && _); [| discriminate].
  inversion Hplus; subst coefficients. clear Hplus.
  exists raw, correction.
  unfold AsymmetricLowRankTrotterStep.trotter_step,
    ControlledAsymmetricLowRankTrotterStep.trotter_step.
  rewrite !yielded_bind_gets, !yielded_bind_yield.
  do 4 eexists.
  split; [exact Hraw |].
  split; [exists tensor, eigenvalues, squares, aux; split; assumption |].
  split; [reflexivity |]. split; [reflexivity |].
  intros p q a b. unfold numpy.getitem2.
  cbn [numpy.nrows numpy.ncols numpy.item
         LowRankTrotterStep.one_body_coefficients].
  destruct ((p <? numpy.nrows raw) && (q <? numpy.ncols raw));
    split; reflexivity.
Qed.

Lemma one_body_swap_network_function_witness :
  LowRankTrotterStep.__init__ Sample.decomposition Sample.prepare
    Sample.hamiltonian None (Some 2%Z) true = Ok (Sample.step 2)
  /\ exists f rest,
       yielded (AsymmetricLowRankTrotterStep.trotter_step
                  Sample.qubits (Sample.Zi_of 1) None (Sample.step 2))
       = swap_network Sample.qubits (Some f) true :: rest
       /\ f 0 1 0 1
          = Ok (on (XXYYGate (Sample.Zi_of 22)) [Some 0; Some 1]).
Proof.
  split; [reflexivity |].
  destruct (one_body_swap_network_function
              Sample.decomposition Sample.prepare Sample.hamiltonian
              None (Some 2%Z) true (Sample.step 2)
              Sample.qubits (Sample.Zi_of 1) None eq_refl)
    as (raw & correction & f & g & rest & rest' & Hraw & Hdec & Hf & _ & Hfun).
  exists f, rest. split; [exact Hf |].
  destruct Hdec as (tensor & eigenvalues & squares & aux & Ht & Hd).
  inversion Hraw; subst raw. inversion Ht; subst tensor.
  inversion Hd; subst.
  destruct (Hfun 0 1 0 1) as [Hf01 _]. rewrite Hf01. reflexivity.
Defined.

(** ** The pass of a decomposition term *)

Lemma length_asymmetric_term {K : Type} `{Numeric K} {Q : Type}
      (time : K) (term : ndarray K * ndarray K) (qubits : list Q)
      (prior : ndarray K) :
  length (asymmetric_term time term qubits prior) = length qubits + 2.
Proof.
  unfold asymmetric_term. cbn [length].
  rewrite length_per_qubit, length_rev. lia.
Qed.

Lemma asymmetric_terms_pass {K : Type} `{Numeric K} {Q : Type}
      (time : K) (n : nat) :
  forall (terms : list (ndarray K * ndarray K)) (j : nat)
         (term : ndarray K * ndarray K) (qubits : list Q) (prior : ndarray K),
    nth_error terms j = Some term ->
    length qubits = n ->
    nth_error (asymmetric_terms time terms qubits prior) (j * (n + 2) + 1)
    = Some (swap_network
              (if Nat.even j then qubits else rev qubits)
              (Some (fun p q a b =>
                 (c <- numpy.getitem2 (fst term) p q ;;
                  Ok (on (Rot11Gate (mul (mul (of_int (-2)) c) time))
                         [Some a; Some b]))%result))
              false).
Proof.
  induction terms as [| term0 terms IH]; intros [| j] term qubits prior
    Hnth Hlen; cbn [nth_error] in Hnth; try discriminate.
  - inversion Hnth; subst term0. reflexivity.
  - cbn [asymmetric_terms].
    rewrite nth_error_app2
      by (rewrite length_asymmetric_term; cbn [Nat.mul]; lia).
    rewrite length_asymmetric_term, Hlen.
    replace (S j * (n + 2) + 1 - (n + 2)) with (j * (n + 2) + 1)
      by (cbn [Nat.mul]; lia).
    rewrite (IH j term (rev qubits) (snd term0) Hnth)
      by (rewrite length_rev; exact Hlen).
    rewrite rev_involutive, Nat.even_succ, <- Nat.negb_even.
    destruct (Nat.even j); reflexivity.
Qed.

(** X23: the pass of the swap network for term j is the value yielded at
    position [2 + n + j * (n + 2)].  It is not fermionic, it acts on the
    qubits reversed once for the one-body pass and once more for each term
    before it, and for indices (p, q) below n its function applies the
    gate with angle [-2 * two_body_coefficients[p, q] * time], the
    coefficients being the j-th scaled matrix, to the two qubits it is
    given. *)
Theorem term_swap_network {K : Type} `{Numeric K} {Q : Type}
        (n : nat) (s : LowRankTrotterStep.obj K) (qubits : list Q) (time : K)
        (control_qubit : option Q) (j : nat) (coefficients : ndarray K) :
  well_formed n s = true ->
  length qubits = n ->
  nth_error (LowRankTrotterStep.scaled_density_density_matrices s) j
  = Some coefficients ->
  exists f,
    nth_error (yielded (AsymmetricLowRankTrotterStep.trotter_step
                          qubits time control_qubit s))
              (2 + n + j * (n + 2))
    = Some (swap_network (if Nat.even j then rev qubits else qubits)
                         (Some f) false)
    /\ forall p q a b,
         p < n -> q < n ->
         f p q a b
         = Ok (on (Rot11Gate
                     (mul (mul (of_int (-2)) (numpy.item coefficients p q))
                          time))
                  [Some a; Some b]).
Proof.
  intros Hwf Hlen Hj.
  rewrite (asymmetric_trotter_step_yields s qubits time control_qubit Hwf Hlen).
  destruct (well_formed_true _ _ Hwf) as (_ & _ & Hls & Hlb & _).
  assert (Hlt : j < length (LowRankTrotterStep.basis_change_matrices s)).
  { rewrite Hlb, <- Hls. apply nth_error_Some. rewrite Hj. discriminate. }
  destruct (nth_error (LowRankTrotterStep.basis_change_matrices s) j)
    as [basis |] eqn:Hb; [| apply nth_error_None in Hb; lia].
  pose proof (nth_error_combine_some _ _ _ _ _ Hj Hb) as Hterm.
  destruct (term_at n s j Hwf Hterm) as (_ & _ & Hcr & Hcc & _ & _).
  cbn [fst] in Hcr, Hcc.
  eexists. split.
  - cbn [yielded fst]. unfold asymmetric_step.
    replace (2 + n + j * (n + 2)) with (S (n + (j * (n + 2) + 1))) by lia.
    cbn [nth_error].
    rewrite nth_error_app2 by (rewrite length_per_qubit, length_rev; lia).
    rewrite length_per_qubit, length_rev, Hlen.
    replace (n + (j * (n + 2) + 1) - n) with (j * (n + 2) + 1) by lia.
    rewrite (asymmetric_terms_pass time n _ j _ _ _ Hterm)
      by (rewrite length_rev; exact Hlen).
    rewrite rev_involutive. cbn [fst]. reflexivity.
  - intros p q a b Hp Hq. cbn beta.
    rewrite getitem2_ok by lia. reflexivity.
Qed.

Lemma term_swap_network_witness :
  well_formed 2 (Sample.step 2) = true
  /\ length Sample.qubits = 2
  /\ exists f,
       nth_error (yielded (AsymmetricLowRankTrotterStep.trotter_step
                             Sample.qubits (Sample.Zi_of 1) None
                             (Sample.step 2)))
                 (2 + 2 + 1 * (2 + 2))
       = Some (swap_network (if Nat.even 1 then rev Sample.qubits
                             else Sample.qubits)
                            (Some f) false).
Proof.
  split; [reflexivity | split; [reflexivity |]].
  destruct (term_swap_network 2 (Sample.step 2) Sample.qubits
              (Sample.Zi_of 1) None 1
              (numpy.real (numpy.scale (Sample.Zi_of 2)
                                       (Sample.array [[7; 1]; [1; 9]]%Z)))
              eq_refl eq_refl eq_refl) as (f & Hf & _).
  exists f. exact Hf.
Defined.

(** ** A step without decomposition terms *)

(** X24: a step without any decomposition term runs to its end on any
    number of qubits up to the rows of its coefficient matrix: it yields
    the fermionic pass, one rotation per qubit and one basis
    transformation, of the identity on the reversed qubits. *)
Theorem step_without_terms {K : Type} `{Numeric K} {Q : Type}
        (N : nat) (s : LowRankTrotterStep.obj K) (qubits : list Q) (time : K)
        (control_qubit : option Q) :
  well_formed N s = true ->
  length (LowRankTrotterStep.eigenvalues s) = 0 ->
  length qubits <= N ->
  returned (AsymmetricLowRankTrotterStep.trotter_step
              qubits time control_qubit s) = Ok tt
  /\ map kind_of (yielded (AsymmetricLowRankTrotterStep.trotter_step
                             qubits time control_qubit s))
     = FermionicSwapNetworkPass
         :: repeat (@ZRotation) (length qubits) ++ [BasisTransformation]
  /\ last (yielded (AsymmetricLowRankTrotterStep.trotter_step
                      qubits time control_qubit s))
          (swap_network qubits None true)
     = bogoliubov_transform (rev qubits) (numpy.identity (length qubits)).
Proof.
  intros Hwf Hnone Hfit.
  destruct (well_formed_true _ _ Hwf) as (Hrows & Hcols & _).
  assert (Hrun :
    AsymmetricLowRankTrotterStep.trotter_step qubits time control_qubit s
    = (swap_network qubits
         (Some (fun p q a b =>
            (c <- numpy.getitem2 (LowRankTrotterStep.one_body_coefficients s)
                                 p q ;;
             Ok (on (XXYYGate (mul (real_part c) time))
                    [Some a; Some b]))%result))
         true
       :: per_qubit
            (fun p qubit =>
               Op (on (RotZGate
                         (mul (neg (real_part
                                      (numpy.item
                                         (LowRankTrotterStep.one_body_coefficients s)
                                         p p)))
                              time))
                      [Some qubit]))
            (rev qubits)
       ++ [bogoliubov_transform (rev qubits)
                                (numpy.identity (length qubits))],
       Ok tt, s)).
  { unfold AsymmetricLowRankTrotterStep.trotter_step.
    etransitivity.
    - eapply bind_ok; [reflexivity |].
      eapply bind_ok; [reflexivity |].
      eapply bind_ok.
      { apply for_each_per_qubit with (qubits := rev qubits).
        - apply length_rev.
        - intros p x Hnth Hp. unfold bind, gets, lift, yield.
          rewrite getitem2_ok by lia. rewrite (getitem_ok _ _ Hnth).
          reflexivity. }
      eapply bind_ok; [reflexivity |].
      cbv beta. rewrite Hnone. cbn [seq for_fold].
      eapply bind_ok; reflexivity.
    - reflexivity. }
  rewrite Hrun. cbn [returned yielded fst snd].
  split; [reflexivity |]. split.
  - cbn [map kind_of]. rewrite map_app.
    rewrite (kinds_of_rotations
               (fun p => mul (neg (real_part
                                     (numpy.item
                                        (LowRankTrotterStep.one_body_coefficients s)
                                        p p)))
                             time)).
    rewrite length_rev. reflexivity.
  - rewrite app_comm_cons. apply last_last.
Qed.

Lemma step_without_terms_witness :
  well_formed 2 (Sample.step 0) = true
  /\ length (LowRankTrotterStep.eigenvalues (Sample.step 0)) = 0
  /\ length [5] <= 2
  /\ returned (AsymmetricLowRankTrotterStep.trotter_step
                 [5] (Sample.Zi_of 1) None (Sample.step 0)) = Ok tt.
Proof.
  split; [reflexivity | split; [reflexivity | split; [cbn; lia |]]].
  apply (step_without_terms 2 (Sample.step 0) [5] (Sample.Zi_of 1) None);
    [reflexivity | reflexivity | cbn; lia].
Defined.

(** ** The controlled step on the wrong number of qubits

    The number of qubits matters with or without a control qubit: on one
    qubit, a well formed step of one term over 2 by 2 arrays ends with the
    value error of [numpy.dot], after the fermionic pass and the first
    generator expression. *)
Lemma controlled_step_on_one_qubit :
  well_formed 2 (Sample.step 1) = true
  /\ returned (ControlledAsymmetricLowRankTrotterStep.trotter_step
                 [5] (Sample.Zi_of 1) None (Sample.step 1))
     = Raise ValueError
  /\ returned (ControlledAsymmetricLowRankTrotterStep.trotter_step
                 [5] (Sample.Zi_of 1) (Some 7) (Sample.step 1))
     = Raise ValueError
  /\ length (yielded (ControlledAsymmetricLowRankTrotterStep.trotter_step
                        [5] (Sample.Zi_of 1) None (Sample.step 1)))
     = 2.
Proof. repeat split; reflexivity. Qed.
